(** * bigcommerce-toolkit: request construction and dispatch

    A shallow embedding of [bigcommerce_toolkit/__main__.py]: the argument
    merger ([parse_input_data], [parse_additional_data],
    [construct_request_data]), the dispatcher ([make_paginated_request],
    [make_request], [handle_request]) and the command-tree compiler
    ([add_action_commands], [add_subcommand_groups], [build_commands],
    [action_command]) together with the command tree shipped in [main].

    Python values are modelled by the type [json]; dictionaries keep their
    insertion order (an association list with first-match lookup), and
    [dict_map] gives their order-free reading as a [gmap].  Effects (standard
    input, the HTTP transport, the file system, the output streams) are
    threaded through an explicit [world]; every effect is recorded, in order,
    in the world's [trace]. *)

From Stdlib Require Import ZArith Ascii String List Lia.
From stdpp Require Import base option list gmap strings.

Set Warnings "-register-all".

Local Open Scope string_scope.
Local Open Scope list_scope.

(** ** Values *)

(** A Python [float] as [json.loads] can produce it: a finite binary
    fraction [num/den], an infinity, or NaN. *)
Inductive pyfloat :=
| FNan
| FInf (negative : bool)
| FFinite (num : Z) (den : positive).

Inductive json :=
| JNull
| JBool (b : bool)
| JInt (z : Z)
| JFloat (f : pyfloat)
| JStr (s : string)
| JArr (items : list json)
| JObj (fields : list (string * json)).

(** A [dict] with [str] keys, in insertion order. *)
Abbreviation dict := (list (string * json)).

Inductive exn :=
| IndexError
| KeyError
| AttributeError
| TypeError
| JSONDecodeError
| ValueError
| RecursionError
| ConnectionError
| OSError
| SystemExit (code : Z).

(** ** Strings *)

Module Str.

(** [s.startswith(p)] *)
Fixpoint startswith (s p : string) : bool :=
  match p, s with
  | EmptyString, _ => true
  | String a p', String b s' => if Ascii.eqb a b then startswith s' p' else false
  | String _ _, EmptyString => false
  end.

Fixpoint mem (c : ascii) (chars : string) : bool :=
  match chars with
  | EmptyString => false
  | String a chars' => if Ascii.eqb a c then true else mem c chars'
  end.

(** [s.lstrip(chars)]: drop every leading character that occurs in
    [chars] (a set of characters, not a prefix). *)
Fixpoint lstrip (s chars : string) : string :=
  match s with
  | EmptyString => EmptyString
  | String c s' => if mem c chars then lstrip s' chars else s
  end.

(** [s.replace(old, new)] for one-character [old] and [new]. *)
Fixpoint replace (s : string) (old new : ascii) : string :=
  match s with
  | EmptyString => EmptyString
  | String c s' => String (if Ascii.eqb c old then new else c) (replace s' old new)
  end.

(** The ASCII characters for which [str.isspace] holds: tab, line feed,
    vertical tab, form feed, carriage return, the four separators
    0x1c-0x1f and the space. *)
Definition isspace (c : ascii) : bool :=
  let n := nat_of_ascii c in
  ((9 <=? n)%nat && (n <=? 13)%nat) || ((28 <=? n)%nat && (n <=? 32)%nat).

(** Strings stand for the UTF-8 encoding of a [str].  The other characters
    for which [str.isspace] holds take two or three bytes: U+0085 and
    U+00A0; U+1680, U+2000 to U+200A, U+2028, U+2029, U+202F, U+205F and
    U+3000. *)
Definition isspace2 (a b : ascii) : bool :=
  (nat_of_ascii a =? 194)%nat
  && ((nat_of_ascii b =? 133)%nat || (nat_of_ascii b =? 160)%nat).

Definition isspace3 (a b c : ascii) : bool :=
  let x := nat_of_ascii a in
  let y := nat_of_ascii b in
  let z := nat_of_ascii c in
  ((x =? 225)%nat && (y =? 154)%nat && (z =? 128)%nat)
  || ((x =? 226)%nat && (y =? 128)%nat
      && (((128 <=? z)%nat && (z <=? 138)%nat)
          || (z =? 168)%nat || (z =? 169)%nat || (z =? 175)%nat))
  || ((x =? 226)%nat && (y =? 129)%nat && (z =? 159)%nat)
  || ((x =? 227)%nat && (y =? 128)%nat && (z =? 128)%nat).

(** Drop the leading whitespace; with [backwards] the string is read from
    its end, so that the bytes of a character come last byte first. *)
Fixpoint lstrip_space_from (backwards : bool) (s : string) : string :=
  match s with
  | EmptyString => EmptyString
  | String a s1 =>
      if isspace a then lstrip_space_from backwards s1
      else
        match s1 with
        | EmptyString => s
        | String b s2 =>
            if (if backwards then isspace2 b a else isspace2 a b)
            then lstrip_space_from backwards s2
            else
              match s2 with
              | EmptyString => s
              | String c s3 =>
                  if (if backwards then isspace3 c b a else isspace3 a b c)
                  then lstrip_space_from backwards s3
                  else s
              end
        end
  end.

Fixpoint rev_onto (s acc : string) : string :=
  match s with
  | EmptyString => acc
  | String c s' => rev_onto s' (String c acc)
  end.

Definition rev (s : string) : string := rev_onto s EmptyString.

Definition lstrip_space (s : string) : string := lstrip_space_from false s.

Definition rstrip_space (s : string) : string :=
  rev (lstrip_space_from true (rev s)).

(** [s.upper()] on ASCII letters *)
Definition upper_char (c : ascii) : ascii :=
  let n := nat_of_ascii c in
  if (97 <=? n)%nat && (n <=? 122)%nat then ascii_of_nat (n - 32) else c.

Fixpoint upper (s : string) : string :=
  match s with
  | EmptyString => EmptyString
  | String c s' => String (upper_char c) (upper s')
  end.

(** [s.strip()] *)
Definition strip (s : string) : string := rstrip_space (lstrip_space s).

(** [bool(s)] *)
Definition nonempty (s : string) : bool :=
  match s with EmptyString => false | String _ _ => true end.

(** [x in s] for two strings *)
Definition contains (s x : string) : bool :=
  match String.index 0 x s with Some _ => true | None => false end.

(** The characters of a string, each as a one-character string. *)
Fixpoint chars (s : string) : list string :=
  match s with
  | EmptyString => []
  | String c s' => String c EmptyString :: chars s'
  end.

End Str.

(** ** Dictionaries *)

Module Dict.

(** [d.get(k)] *)
Fixpoint get (k : string) (d : dict) : option json :=
  match d with
  | [] => None
  | (k', v) :: d' => if String.eqb k' k then Some v else get k d'
  end.

(** [k in d] *)
Definition has (k : string) (d : dict) : bool :=
  match get k d with Some _ => true | None => false end.

(** [d[k] = v]: an existing key keeps its position, a new key goes last. *)
Fixpoint set (k : string) (v : json) (d : dict) : dict :=
  match d with
  | [] => [(k, v)]
  | (k', v') :: d' =>
      if String.eqb k' k then (k', v) :: d' else (k', v') :: set k v d'
  end.

(** [d.update(other)]: the items of [other] are assigned in order. *)
Definition update (d other : dict) : dict :=
  fold_left (fun acc kv => set kv.1 kv.2 acc) other d.

(** What is left of [d] after [d.pop(k)]. *)
Fixpoint remove (k : string) (d : dict) : dict :=
  match d with
  | [] => []
  | (k', v) :: d' => if String.eqb k' k then remove k d' else (k', v) :: remove k d'
  end.

End Dict.

(** The mapping a dictionary denotes, forgetting insertion order. *)
Definition dict_map (d : dict) : gmap string json := list_to_map d.

(** [bool(v)] *)
Definition truthy (v : json) : bool :=
  match v with
  | JNull => false
  | JBool b => b
  | JInt z => negb (z =? 0)%Z
  | JFloat (FFinite n _) => negb (n =? 0)%Z
  | JFloat _ => true
  | JStr s => Str.nonempty s
  | JArr l => match l with [] => false | _ => true end
  | JObj d => match d with [] => false | _ => true end
  end.

(** A literal of the command tree as the code retrieves it: [None] (a
    missing key read with [.get(key, None)]), a [str] or a [bool]. *)
Inductive lit :=
| LNone
| LStr (s : string)
| LBool (b : bool).

Definition lit_truthy (l : lit) : bool :=
  match l with
  | LNone => false
  | LStr s => Str.nonempty s
  | LBool b => b
  end.

(** [l == s] for a [str] literal [s] *)
Definition lit_is (l : lit) (s : string) : bool :=
  match l with
  | LStr t => String.eqb t s
  | _ => false
  end.

(** [l == v], for the element test of [l in some_list] *)
Definition lit_eq_json (l : lit) (v : json) : bool :=
  match l, v with
  | LNone, JNull => true
  | LStr s, JStr t => String.eqb s t
  | LBool b, JBool b' => Bool.eqb b b'
  | LBool b, JInt z => (z =? (if b then 1 else 0))%Z
  | LBool b, JFloat (FFinite n d) => (n =? (if b then Z.pos d else 0))%Z
  | _, _ => false
  end.

(** ** The world *)

Record response := Response {
  status_code : Z;
  content : string
}.

(** One request as [requests] sends it: the method in upper case, the other
    fields as they were passed to [requests.request]. *)
Record request := Request {
  req_method : string;
  req_url : string;
  req_headers : list (string * option string);
  req_json : option json;
  req_data : option json;
  req_params : option json;
  req_files : option (lit * json)
}.

Inductive reply :=
| Reply (r : response)
| NoReply.

Inductive stream := Stdout | Stderr.

Inductive event :=
| EvOpen (name : json)
| EvClose (name : json)
| EvRequest (r : request)
| EvPrint (to : stream) (text : string) (dumped : option json).

Record world := World {
  stdin : string;                     (* what is left to read on sys.stdin *)
  server : nat -> request -> reply;   (* the answer to the n-th request sent *)
  sent : nat;                         (* how many requests have been sent *)
  disk : json -> bool;                (* the names [open(name, 'rb')] succeeds on:
                                         never a path with a NUL byte, never an
                                         integer that is no descriptor *)
  trace : list event                  (* the effects so far, oldest first *)
}.

(** ** Computations *)

Inductive result (A : Type) :=
| Done (a : A)
| Raised (e : exn)
| OutOfFuel.
Arguments Done {A} a.
Arguments Raised {A} e.
Arguments OutOfFuel {A}.

Definition M (A : Type) : Type := world -> result A * world.

Definition ret {A} (a : A) : M A := fun w => (Done a, w).

Definition raise {A} (e : exn) : M A := fun w => (Raised e, w).

Definition bind {A B} (m : M A) (k : A -> M B) : M B :=
  fun w =>
    match m w with
    | (Done a, w') => k a w'
    | (Raised e, w') => (Raised e, w')
    | (OutOfFuel, w') => (OutOfFuel, w')
    end.

Definition lift {A} (r : result A) : M A := fun w => (r, w).

Declare Scope py_scope.
Delimit Scope py_scope with py.
Notation "x <- m ;; k" := (bind m (fun x => k))
  (at level 100, m at next level, right associativity) : py_scope.
Notation "m ;;; k" := (bind m (fun _ => k))
  (at level 100, right associativity) : py_scope.
Local Open Scope py_scope.

(** [for x in xs: state = body(state, x)] *)
Fixpoint for_each {A S} (body : S -> A -> M S) (xs : list A) (s : S) : M S :=
  match xs with
  | [] => ret s
  | x :: xs' => s' <- body s x ;; for_each body xs' s'
  end.

Definition emit (e : event) : M unit :=
  fun w => (Done tt, World (stdin w) (server w) (sent w) (disk w) (trace w ++ [e])).

(** [sys.stdin.read()]: everything that is left, and nothing after that. *)
Definition stdin_read : M string :=
  fun w => (Done (stdin w), World "" (server w) (sent w) (disk w) (trace w)).

(** The exception of an [open(name, 'rb')] that does not succeed, for a
    [str], [int] or [bool] name: [ValueError] for a path with a NUL byte and
    for a negative descriptor, [TypeError] for an integer that is no C int,
    [OSError] when the file system refuses. *)
Definition open_error (name : json) : exn :=
  match name with
  | JStr path => if Str.mem (ascii_of_nat 0) path then ValueError else OSError
  | JInt fd =>
      if ((fd <? -2147483648) || (2147483647 <? fd))%Z then TypeError
      else if (fd <? 0)%Z then ValueError
      else OSError
  | _ => OSError
  end.

(** [open(name, 'rb')] *)
Definition py_open (name : json) : M json :=
  match name with
  | JStr _ | JInt _ | JBool _ =>
      fun w => if disk w name then (_ <- emit (EvOpen name) ;; ret name) w
               else (Raised (open_error name), w)
  | _ => raise TypeError
  end.

(** One exchange on the transport: the request is recorded, then answered
    or not. *)
Definition transport (r : request) : M response :=
  fun w =>
    let w' := World (stdin w) (server w) (S (sent w)) (disk w) (trace w ++ [EvRequest r]) in
    match server w (sent w) r with
    | Reply resp => (Done resp, w')
    | NoReply => (Raised ConnectionError, w')
    end.

(** [f'https://api.bigcommerce.com/stores/{store_hash}/{endpoint}'] *)
Definition api_url (store_hash endpoint : string) : string :=
  "https://api.bigcommerce.com/stores/" +:+ store_hash +:+ "/" +:+ endpoint.

(** The [headers] dictionary of [make_request]; ['Content-Type'] is [None]
    when [files] is given. *)
Definition api_headers (auth_token : string) (files : option (lit * json))
    : list (string * option string) :=
  [("X-Auth-Token", Some auth_token);
   ("Accept", Some "application/json");
   ("Content-Type", match files with None => Some "application/json" | Some _ => None end)].

(** ** Operations on values that may raise *)

(** [v.get(key, default)]: only a [dict] has the method. *)
Definition py_get (v : json) (key : string) (default : json) : result json :=
  match v with
  | JObj d => Done (match Dict.get key d with Some x => x | None => default end)
  | _ => Raised AttributeError
  end.

(** The items [some_list.extend(v)] appends: the elements of a list, the
    characters of a string, the keys of a dictionary. *)
Definition py_iter (v : json) : result (list json) :=
  match v with
  | JArr l => Done l
  | JStr s => Done (JStr <$> Str.chars s)
  | JObj d => Done ((fun kv => JStr kv.1) <$> d)
  | _ => Raised TypeError
  end.

(** [json_response.get('meta', {}).get('pagination', {}).get('total_pages', 0)] *)
Definition total_pages_field (json_response : json) : result json :=
  match py_get json_response "meta" (JObj []) with
  | Done meta =>
      match py_get meta "pagination" (JObj []) with
      | Done pagination => py_get pagination "total_pages" (JInt 0)
      | other => other
      end
  | other => other
  end.

(** [page >= v] for an [int] page. *)
Definition py_int_ge (page : Z) (v : json) : result bool :=
  match v with
  | JInt z => Done (z <=? page)%Z
  | JBool b => Done ((if b then 1 else 0) <=? page)%Z
  | JFloat FNan => Done false
  | JFloat (FInf negative) => Done negative
  | JFloat (FFinite n d) => Done (n <=? page * Z.pos d)%Z
  | _ => Raised TypeError
  end.

(** [multipart_parameter in request_data] *)
Definition py_in (x : lit) (container : json) : result bool :=
  match container with
  | JObj d => Done (match x with LStr s => Dict.has s d | _ => false end)
  | JArr l => Done (existsb (lit_eq_json x) l)
  | JStr t => match x with LStr s => Done (Str.contains t s) | _ => Raised TypeError end
  | _ => Raised TypeError
  end.

(** [request_data.pop(multipart_parameter)]: the value popped and what is
    left of [request_data]. *)
Definition py_pop (x : lit) (container : json) : result (json * json) :=
  match container with
  | JObj d =>
      match x with
      | LStr s =>
          match Dict.get s d with
          | Some v => Done (v, JObj (Dict.remove s d))
          | None => Raised KeyError
          end
      | _ => Raised KeyError
      end
  | JArr l =>
      match x with
      | LBool b =>
          let i := if b then 1 else 0 in
          match l !! i with
          | Some v => Done (v, JArr (delete i l))
          | None => Raised IndexError
          end
      | _ => Raised TypeError
      end
  | _ => Raised AttributeError
  end.

(** [for item in data: item.update(additional_data)] *)
Fixpoint update_each (data : list json) (additional_data : dict) : result (list json) :=
  match data with
  | [] => Done []
  | JObj item :: data' =>
      match update_each data' additional_data with
      | Done rest => Done (JObj (Dict.update item additional_data) :: rest)
      | Raised e => Raised e
      | OutOfFuel => OutOfFuel
      end
  | _ :: _ => Raised AttributeError
  end.

(** [range(0, n, 2)] *)
Definition range_0_2 (n : nat) : list nat :=
  (fun k => 2 * k) <$> seq 0 (Nat.div2 (S n)).

(** ** The command tree *)

(** An action of the tree: a dictionary literal of [str] and [bool]. *)
Abbreviation action := (list (string * lit)).

(** [a.get(k)] *)
Fixpoint lit_get (k : string) (a : action) : option lit :=
  match a with
  | [] => None
  | (k', v) :: a' => if String.eqb k' k then Some v else lit_get k a'
  end.

(** [a.get(k, default)] *)
Definition lit_get_default (k : string) (default : lit) (a : action) : lit :=
  match lit_get k a with Some v => v | None => default end.

(** A resource of the tree: ['command'], ['endpoint'] when present,
    ['actions'] and ['subcommands'] (empty when absent, as the code reads
    both with [.get(key, [])]). *)
Inductive command_dict :=
| CommandDict (command : string) (endpoint : option string)
    (actions : list action) (subcommands : list command_dict).

Definition command (c : command_dict) : string :=
  match c with CommandDict n _ _ _ => n end.
Definition endpoint (c : command_dict) : option string :=
  match c with CommandDict _ e _ _ => e end.
Definition actions (c : command_dict) : list action :=
  match c with CommandDict _ _ a _ => a end.
Definition subcommands (c : command_dict) : list command_dict :=
  match c with CommandDict _ _ _ s => s end.

(** One command registered with click: the group it lives in, its name, the
    endpoint template and the action its closure captured.  The options that
    [add_action_commands] declares for the placeholders of the template are
    click's business and are not represented. *)
Record compiled := Compiled {
  cmd_group : list string;
  cmd_name : lit;
  endpoint_format : string;
  cmd_action : action
}.

Fixpoint add_action_commands_loop (group : list string) (endpoint_format : string)
    (acts : list action) : result (list compiled) :=
  match acts with
  | [] => Done []
  | a :: acts' =>
      match lit_get "action" a with
      | None => Raised KeyError
      | Some name =>
          match add_action_commands_loop group endpoint_format acts' with
          | Done rest => Done (Compiled group name endpoint_format a :: rest)
          | other => other
          end
      end
  end.

Definition add_action_commands (group : list string) (c : command_dict)
    : result (list compiled) :=
  add_action_commands_loop group
    (match endpoint c with Some e => e | None => "" end) (actions c).

Fixpoint add_subcommand_groups_loop (group : list string) (subs : list command_dict)
    : result (list compiled) :=
  match subs with
  | [] => Done []
  | subcmd :: subs' =>
      match add_action_commands (group ++ [command subcmd]) subcmd with
      | Done here =>
          match add_subcommand_groups_loop group subs' with
          | Done rest => Done (here ++ rest)
          | other => other
          end
      | other => other
      end
  end.

Definition add_subcommand_groups (group : list string) (c : command_dict)
    : result (list compiled) :=
  add_subcommand_groups_loop group (subcommands c).

(** The action commands [build_commands] creates, in creation order.  What
    is modelled is the reading of the tree; the checks click makes on the
    option names declared for the placeholders ([placeholder_options]) are
    click's own and are not part of it. *)
Fixpoint build_commands (structure : list command_dict) : result (list compiled) :=
  match structure with
  | [] => Done []
  | cmd :: structure' =>
      match add_action_commands [command cmd] cmd with
      | Done own =>
          match add_subcommand_groups [command cmd] cmd with
          | Done nested =>
              match build_commands structure' with
              | Done rest => Done (own ++ nested ++ rest)
              | other => other
              end
          | other => other
          end
      | other => other
      end
  end.

Section Toolkit.

(** [json.loads] of the standard library: the decoded value, or the
    exception it raises: [JSONDecodeError] on a text that is not JSON,
    [ValueError] on an integer literal beyond the digit limit,
    [RecursionError] on nesting that is too deep. *)
Variable json_loads : string -> result json.

(** ** Argument merger *)

Definition parse_input_data (data_str : string) : M json :=
  data_str <- (if String.eqb data_str "-"
               then s <- stdin_read ;; ret (Str.strip s)
               else ret data_str) ;;
  match json_loads data_str with
  | Done v => ret v
  | Raised JSONDecodeError => ret (JStr data_str)
  | Raised e => raise e
  | OutOfFuel => lift OutOfFuel
  end.

(** [flag.lstrip('--').replace('-', '_')] *)
Definition flag_key (flag : string) : string :=
  Str.replace (Str.lstrip flag "--") "-" "_".

(** The body of the loop of [parse_additional_data] at index [i]. *)
Definition additional_item (unknown_args : list string)
    (additional_data : dict) (i : nat) : M dict :=
  match unknown_args !! i with
  | None => raise IndexError
  | Some flag =>
      if Str.startswith flag "--" then
        let key := flag_key flag in
        match unknown_args !! (i + 1) with
        | None => raise IndexError
        | Some value =>
            v <- parse_input_data value ;;
            ret (Dict.set key v additional_data)
        end
      else ret additional_data
  end.

Definition parse_additional_data (unknown_args : list string) : M dict :=
  for_each (additional_item unknown_args) (range_0_2 (length unknown_args)) [].

(** [parse_input_data(args.get('data')) if args.get('data') else {}];
    [args.get('data')] is [None] when [--data] was not given. *)
Definition primary_data (args_data : option string) : M json :=
  match args_data with
  | Some s => if Str.nonempty s then parse_input_data s else ret (JObj [])
  | None => ret (JObj [])
  end.

Definition construct_request_data (args_data : option string)
    (unknown_args : list string) : M json :=
  data <- primary_data args_data ;;
  additional_data <- parse_additional_data unknown_args ;;
  match data with
  | JArr items =>
      items' <- lift (update_each items additional_data) ;;
      ret (JArr items')
  | JObj d => ret (JObj (Dict.update d additional_data))
  | _ => raise AttributeError
  end.

(** ** Request dispatcher *)

(** [response.json()] *)
Definition response_json (r : response) : M json :=
  lift (json_loads (content r)).

(** [requests.request(method, url, headers=.., json=.., data=.., params=..,
    files=..)]: the method is upper-cased before anything is sent, which
    only a [str] supports. *)
Definition requests_request (method : lit) (url : string)
    (headers : list (string * option string))
    (json_ data params : option json) (files : option (lit * json)) : M response :=
  match method with
  | LStr m => transport (Request (Str.upper m) url headers json_ data params files)
  | _ => raise AttributeError
  end.

(** [requests.get(url, headers=.., params=..)] *)
Definition requests_get (url : string) (headers : list (string * option string))
    (params : option json) : M response :=
  requests_request (LStr "get") url headers None None params None.

(** [params] extended with ['page': page] when [params] is truthy, else
    the dictionary with ['page'] alone. *)
Definition paginated_params (params : option json) (page : Z) : result dict :=
  match params with
  | Some p =>
      if truthy p then
        match p with
        | JObj d => Done (Dict.set "page" (JInt page) d)
        | _ => Raised TypeError
        end
      else Done [("page", JInt page)]
  | None => Done [("page", JInt page)]
  end.

(** The [while True] loop of [make_paginated_request], entered with the
    current [results] and [page]; [fuel] bounds the number of
    iterations. *)
Fixpoint paginated_loop (fuel : nat) (url : string)
    (headers : list (string * option string)) (params : option json)
    (results : list json) (page : Z) : M json :=
  match fuel with
  | O => lift OutOfFuel
  | S fuel' =>
      pp <- lift (paginated_params params page) ;;
      response <- requests_get url headers (Some (JObj pp)) ;;
      if negb (status_code response =? 200)%Z then response_json response
      else
        json_response <- response_json response ;;
        data <- lift (py_get json_response "data" (JArr [])) ;;
        items <- lift (py_iter data) ;;
        let results := results ++ items in
        total_pages <- lift (total_pages_field json_response) ;;
        stop <- lift (py_int_ge page total_pages) ;;
        if stop then ret (JObj [("data", JArr results)])
        else paginated_loop fuel' url headers params results (page + 1)
  end.

Definition make_paginated_request (fuel : nat) (url : string)
    (headers : list (string * option string)) (params : option json) : M json :=
  paginated_loop fuel url headers params [] 1.

Definition no_content (r : response) : json :=
  JObj [("status", JInt (status_code r)); ("title", JStr "No Content")].

Definition make_request (fuel : nat) (method : lit) (endpoint : string)
    (data params : option json) (all_pages : lit)
    (store_hash auth_token : string) (files : option (lit * json)) : M json :=
  let url := api_url store_hash endpoint in
  let headers := api_headers auth_token files in
  if lit_truthy all_pages && lit_is method "GET" then
    make_paginated_request fuel url headers params
  else
    response <- requests_request method url headers
                  (match files with None => data | Some _ => None end)
                  (match files with None => None | Some _ => data end)
                  params files ;;
    if ((status_code response =? 200) || (status_code response =? 204))%Z then
      if Str.nonempty (content response) then response_json response
      else ret (no_content response)
    else response_json response.

Definition handle_request (fuel : nat) (endpoint : string) (method all_pages : lit)
    (multipart_parameter : lit) (request_data : json)
    (store_hash auth_token : string) (verbose : bool) : M json :=
  is_multipart <- lift (py_in multipart_parameter request_data) ;;
  fr <- (if is_multipart : bool then
           popped <- lift (py_pop multipart_parameter request_data) ;;
           handle <- py_open popped.1 ;;
           ret (Some (multipart_parameter, handle), popped.2)
         else ret (None, request_data)) ;;
  let files := fr.1 in
  let request_data := fr.2 in
  (if verbose then
     emit (EvPrint Stderr "Endpoint:" (Some (JStr endpoint))) ;;;
     emit (EvPrint Stderr "Request Data:" (Some request_data))
   else ret tt) ;;;
  make_request fuel method endpoint
    (if lit_is method "POST" || lit_is method "PUT" then Some request_data else None)
    (if lit_is method "GET" then Some request_data else None)
    all_pages store_hash auth_token files.

(** ** Command-tree compiler *)

(** [template.format] applied to the keyword arguments: the formatted string, or the
    exception it raises (a [KeyError] for a missing name). *)
Variable str_format : string -> list (string * string) -> result string.

(** The closure [action_command] that [add_action_commands] creates for
    the command [c], called by click with the option values. *)
Definition action_command (fuel : nat) (c : compiled)
    (store_hash auth_token : string) (verbose : bool)
    (data : option string) (unknown_args : list string)
    (kwargs : list (string * string)) : M unit :=
  request_data <- construct_request_data data unknown_args ;;
  kwargs <- for_each
              (fun acc kv =>
                 if String.eqb kv.2 "-"
                 then s <- stdin_read ;; ret (acc ++ [(kv.1, Str.strip s)])
                 else ret (acc ++ [kv]))
              kwargs [] ;;
  if Str.nonempty (endpoint_format c) then
    endpoint <- lift (str_format (endpoint_format c) kwargs) ;;
    method <- lift (match lit_get "method" (cmd_action c) with
                    | Some m => Done m
                    | None => Raised KeyError
                    end) ;;
    response <- handle_request fuel endpoint method
                  (lit_get_default "allPages" (LBool false) (cmd_action c))
                  (lit_get_default "multipartParameter" LNone (cmd_action c))
                  request_data store_hash auth_token verbose ;;
    emit (EvPrint Stdout "" (Some response))
  else
    emit (EvPrint Stderr "An endpoint not defined for this command." None) ;;;
    raise (SystemExit 1).

End Toolkit.

(** The tree [main] hands to [build_commands]. *)
Definition commands_structure : list command_dict :=
  [
    CommandDict "product" (Some "v3/catalog/products/{product_id}")
      [[("action", LStr "get"); ("method", LStr "GET")];
       [("action", LStr "add"); ("method", LStr "POST")];
       [("action", LStr "update"); ("method", LStr "PUT")];
       [("action", LStr "delete"); ("method", LStr "DELETE")]]
      [
        CommandDict "metafield" (Some "v3/catalog/products/{product_id}/metafields/{metafield_id}")
          [[("action", LStr "get"); ("method", LStr "GET")];
           [("action", LStr "update"); ("method", LStr "PUT")];
           [("action", LStr "delete"); ("method", LStr "DELETE")]]
          [];
        CommandDict "metafields" (Some "v3/catalog/products/{product_id}/metafields")
          [[("action", LStr "get"); ("method", LStr "GET")];
           [("action", LStr "get-all"); ("method", LStr "GET"); ("allPages", LBool true)];
           [("action", LStr "add"); ("method", LStr "POST")]]
          [];
        CommandDict "custom-field" (Some "v3/catalog/products/{product_id}/custom-fields/{custom_field_id}")
          [[("action", LStr "get"); ("method", LStr "GET")];
           [("action", LStr "update"); ("method", LStr "PUT")];
           [("action", LStr "delete"); ("method", LStr "DELETE")]]
          [];
        CommandDict "custom-fields" (Some "v3/catalog/products/{product_id}/custom-fields")
          [[("action", LStr "get"); ("method", LStr "GET")];
           [("action", LStr "get-all"); ("method", LStr "GET"); ("allPages", LBool true)];
           [("action", LStr "add"); ("method", LStr "POST")]]
          [];
        CommandDict "image" (Some "v3/catalog/products/{product_id}/images/{image_id}")
          [[("action", LStr "get"); ("method", LStr "GET")];
           [("action", LStr "update"); ("method", LStr "PUT")];
           [("action", LStr "delete"); ("method", LStr "DELETE")]]
          [];
        CommandDict "images" (Some "v3/catalog/products/{product_id}/images")
          [[("action", LStr "get"); ("method", LStr "GET")];
           [("action", LStr "get-all"); ("method", LStr "GET"); ("allPages", LBool true)];
           [("action", LStr "add"); ("method", LStr "POST"); ("multipartParamter", LStr "image_file")]]
          []
      ];
    CommandDict "products" (Some "v3/catalog/products")
      [[("action", LStr "get"); ("method", LStr "GET")];
       [("action", LStr "get-all"); ("method", LStr "GET"); ("allPages", LBool true)];
       [("action", LStr "add"); ("method", LStr "POST")];
       [("action", LStr "update"); ("method", LStr "PUT")];
       [("action", LStr "delete"); ("method", LStr "DELETE")]]
      [];
    CommandDict "category-tree" (Some "v3/catalog/trees/{tree_id}/categories")
      [[("action", LStr "get"); ("method", LStr "GET")];
       [("action", LStr "update"); ("method", LStr "PUT")];
       [("action", LStr "delete"); ("method", LStr "DELETE")]]
      [];
    CommandDict "category-trees" (Some "v3/catalog/trees")
      [[("action", LStr "get"); ("method", LStr "GET")];
       [("action", LStr "get-all"); ("method", LStr "GET"); ("allPages", LBool true)];
       [("action", LStr "add"); ("method", LStr "POST")];
       [("action", LStr "update"); ("method", LStr "PUT")];
       [("action", LStr "delete"); ("method", LStr "DELETE")]]
      [];
    CommandDict "category" None
      []
      [
        CommandDict "metafield" (Some "v3/catalog/categories/{category_id}/metafields/{metafield_id}")
          [[("action", LStr "get"); ("method", LStr "GET")];
           [("action", LStr "update"); ("method", LStr "PUT")];
           [("action", LStr "delete"); ("method", LStr "DELETE")]]
          [];
        CommandDict "metafields" (Some "v3/catalog/categories/{category_id}/metafields")
          [[("action", LStr "get"); ("method", LStr "GET")];
           [("action", LStr "get-all"); ("method", LStr "GET"); ("allPages", LBool true)];
           [("action", LStr "add"); ("method", LStr "POST")]]
          [];
        CommandDict "image" (Some "v3/catalog/categories/{category_id}/image")
          [[("action", LStr "get"); ("method", LStr "GET")];
           [("action", LStr "add"); ("method", LStr "POST"); ("multipartParamter", LStr "image_file")];
           [("action", LStr "update"); ("method", LStr "PUT")];
           [("action", LStr "delete"); ("method", LStr "DELETE")]]
          []
      ];
    CommandDict "categories" (Some "v3/catalog/trees/categories")
      [[("action", LStr "get"); ("method", LStr "GET")];
       [("action", LStr "get-all"); ("method", LStr "GET"); ("allPages", LBool true)];
       [("action", LStr "add"); ("method", LStr "POST")];
       [("action", LStr "update"); ("method", LStr "PUT")];
       [("action", LStr "delete"); ("method", LStr "DELETE")]]
      [];
    CommandDict "customer" None
      []
      [
        CommandDict "metafields" (Some "v3/customers/{customer_id}/metafields")
          [[("action", LStr "get"); ("method", LStr "GET")];
           [("action", LStr "add"); ("method", LStr "POST")];
           [("action", LStr "update"); ("method", LStr "PUT")];
           [("action", LStr "delete"); ("method", LStr "DELETE")]]
          []
      ];
    CommandDict "customers" (Some "v3/customers")
      [[("action", LStr "get"); ("method", LStr "GET")];
       [("action", LStr "get-all"); ("method", LStr "GET"); ("allPages", LBool true)];
       [("action", LStr "add"); ("method", LStr "POST")];
       [("action", LStr "update"); ("method", LStr "PUT")];
       [("action", LStr "delete"); ("method", LStr "DELETE")]]
      [];
    CommandDict "order" (Some "v2/orders/{order_id}")
      []
      [
        CommandDict "metafields" (Some "v3/orders/{order_id}/metafields")
          [[("action", LStr "get"); ("method", LStr "GET")];
           [("action", LStr "add"); ("method", LStr "POST")];
           [("action", LStr "update"); ("method", LStr "PUT")];
           [("action", LStr "delete"); ("method", LStr "DELETE")]]
          []
      ];
    CommandDict "orders" (Some "v2/orders")
      [[("action", LStr "get"); ("method", LStr "GET")];
       [("action", LStr "get-all"); ("method", LStr "GET"); ("allPages", LBool true)];
       [("action", LStr "add"); ("method", LStr "POST")];
       [("action", LStr "delete"); ("method", LStr "DELETE")]]
      [];
    CommandDict "page" (Some "v3/content/pages/{page_id}")
      [[("action", LStr "get"); ("method", LStr "GET")];
       [("action", LStr "update"); ("method", LStr "PUT")];
       [("action", LStr "delete"); ("method", LStr "DELETE")]]
      [];
    CommandDict "pages" (Some "v3/content/pages")
      [[("action", LStr "get"); ("method", LStr "GET")];
       [("action", LStr "get-all"); ("method", LStr "GET"); ("allPages", LBool true)];
       [("action", LStr "add"); ("method", LStr "POST")];
       [("action", LStr "update"); ("method", LStr "PUT")];
       [("action", LStr "delete"); ("method", LStr "DELETE")]]
      [];
    CommandDict "redirects" (Some "v3/storefront/redirects")
      [[("action", LStr "get"); ("method", LStr "GET")];
       [("action", LStr "get-all"); ("method", LStr "GET"); ("allPages", LBool true)];
       [("action", LStr "add"); ("method", LStr "POST")];
       [("action", LStr "update"); ("method", LStr "PUT")];
       [("action", LStr "delete"); ("method", LStr "DELETE")]]
      [];
    CommandDict "site" (Some "v3/sites/{site_id}")
      [[("action", LStr "get"); ("method", LStr "GET")];
       [("action", LStr "update"); ("method", LStr "PUT")];
       [("action", LStr "delete"); ("method", LStr "DELETE")]]
      [];
    CommandDict "sites" (Some "v3/sites")
      [[("action", LStr "get"); ("method", LStr "GET")];
       [("action", LStr "get-all"); ("method", LStr "GET"); ("allPages", LBool true)];
       [("action", LStr "add"); ("method", LStr "POST")]]
      [];
    CommandDict "widget-template" (Some "v3/content/widget-templates/{uuid}")
      [[("action", LStr "get"); ("method", LStr "GET")];
       [("action", LStr "update"); ("method", LStr "PUT")];
       [("action", LStr "delete"); ("method", LStr "DELETE")]]
      [
        CommandDict "render" (Some "v3/content/widget-templates/{uuid}/preview")
          [[("action", LStr "add"); ("method", LStr "POST")]]
          []
      ];
    CommandDict "widget-templates" (Some "v3/content/widget-templates")
      [[("action", LStr "get"); ("method", LStr "GET")];
       [("action", LStr "get-all"); ("method", LStr "GET"); ("allPages", LBool true)];
       [("action", LStr "add"); ("method", LStr "POST")]]
      [];
    CommandDict "widget" (Some "v3/content/widgets/{uuid}")
      [[("action", LStr "get"); ("method", LStr "GET")];
       [("action", LStr "update"); ("method", LStr "PUT")];
       [("action", LStr "delete"); ("method", LStr "DELETE")]]
      [];
    CommandDict "widgets" (Some "v3/content/widgets")
      [[("action", LStr "get"); ("method", LStr "GET")];
       [("action", LStr "get-all"); ("method", LStr "GET"); ("allPages", LBool true)];
       [("action", LStr "add"); ("method", LStr "POST")]]
      [];
    CommandDict "placement" (Some "v3/content/placements/{uuid}")
      [[("action", LStr "get"); ("method", LStr "GET")];
       [("action", LStr "update"); ("method", LStr "PUT")];
       [("action", LStr "delete"); ("method", LStr "DELETE")]]
      [];
    CommandDict "placements" (Some "v3/content/placements")
      [[("action", LStr "get"); ("method", LStr "GET")];
       [("action", LStr "get-all"); ("method", LStr "GET"); ("allPages", LBool true)];
       [("action", LStr "add"); ("method", LStr "POST")]]
      [];
    CommandDict "regions" (Some "v3/content/regions")
      [[("action", LStr "get"); ("method", LStr "GET")]]
      [];
    CommandDict "custom-template-associations" (Some "v3/storefront/custom-template-associations")
      [[("action", LStr "get"); ("method", LStr "GET")];
       [("action", LStr "get-all"); ("method", LStr "GET"); ("allPages", LBool true)];
       [("action", LStr "add"); ("method", LStr "PUT")];
       [("action", LStr "update"); ("method", LStr "PUT")];
       [("action", LStr "delete"); ("method", LStr "DELETE")]]
      [];
    CommandDict "themes" (Some "v3/themes")
      [[("action", LStr "get"); ("method", LStr "GET")];
       [("action", LStr "get-all"); ("method", LStr "GET"); ("allPages", LBool true)];
       [("action", LStr "upload"); ("method", LStr "POST")]]
      [
        CommandDict "custom-templates" (Some "v3/themes/custom-templates/{version_uuid}")
          [[("action", LStr "get"); ("method", LStr "GET")];
           [("action", LStr "get-all"); ("method", LStr "GET"); ("allPages", LBool true)]]
          [];
        CommandDict "activate" (Some "v3/themes/actions/activate")
          [[("action", LStr "set"); ("method", LStr "POST")]]
          []
      ];
    CommandDict "theme" (Some "v3/themes/{uuid}")
      [[("action", LStr "get"); ("method", LStr "GET")];
       [("action", LStr "delete"); ("method", LStr "DELETE")]]
      [];
    CommandDict "channels" (Some "v3/channels")
      [[("action", LStr "get"); ("method", LStr "GET")];
       [("action", LStr "get-all"); ("method", LStr "GET"); ("allPages", LBool true)];
       [("action", LStr "add"); ("method", LStr "POST")]]
      [];
    CommandDict "channel" (Some "v3/channels/{channel_id}")
      [[("action", LStr "get"); ("method", LStr "GET")];
       [("action", LStr "update"); ("method", LStr "PUT")]]
      [
        CommandDict "active-theme" (Some "v3/channels/{channel_id}/active-theme")
          [[("action", LStr "get"); ("method", LStr "GET")]]
          []
      ]
  ].

(** ** Reading the extra tokens pair by pair *)

(** The keys of the flagged pairs of a token list, in order. *)
Fixpoint flag_keys (unknown_args : list string) : list string :=
  match unknown_args with
  | flag :: _ :: rest =>
      if Str.startswith flag "--" then flag_key flag :: flag_keys rest
      else flag_keys rest
  | _ => []
  end.

(** [parse_additional_data] read off the token list two tokens at a time,
    starting from the mapping [acc]; [parse_additional_data_pairs] shows
    that the indexed loop computes exactly this. *)
Fixpoint consume_pairs (json_loads : string -> result json) (acc : dict)
    (unknown_args : list string) : M dict :=
  match unknown_args with
  | [] => ret acc
  | flag :: rest =>
      match rest with
      | [] => if Str.startswith flag "--" then raise IndexError else ret acc
      | value :: rest' =>
          if Str.startswith flag "--" then
            v <- parse_input_data json_loads value ;;
            consume_pairs json_loads (Dict.set (flag_key flag) v acc) rest'
          else consume_pairs json_loads acc rest'
      end
  end.

(** ** Sample data for the examples *)

(** The double-quote character and a quoted name, to spell JSON texts. *)
Definition dq : string := String (ascii_of_nat 34) EmptyString.
Definition quoted (s : string) : string := dq +:+ s +:+ dq.

(** One page of a paginated listing:
    [{"data": [..], "meta": {"pagination": {"total_pages": n}}}]. *)
Definition page_text (items total : string) : string :=
  "{" +:+ quoted "data" +:+ ": [" +:+ items +:+ "], " +:+ quoted "meta" +:+ ": {"
      +:+ quoted "pagination" +:+ ": {" +:+ quoted "total_pages" +:+ ": " +:+ total +:+ "}}}".

Definition page_value (items : list json) (total : Z) : json :=
  JObj [("data", JArr items);
        ("meta", JObj [("pagination", JObj [("total_pages", JInt total)])])].

(** A finite fragment of [json.loads]: the documents the examples use, each
    with the value the decoder gives it; every other text is rejected here. *)
Definition sample_documents : list (string * json) :=
  [ ("5", JInt 5);
    ("3", JInt 3);
    ("4", JInt 4);
    ("9", JInt 9);
    ("{}", JObj []);
    ("[]", JArr []);
    ("{" +:+ quoted "a" +:+ ": 1, " +:+ quoted "b" +:+ ": 2}",
       JObj [("a", JInt 1); ("b", JInt 2)]);
    ("[{" +:+ quoted "a" +:+ ": 1}, {" +:+ quoted "b" +:+ ": 2}]",
       JArr [JObj [("a", JInt 1)]; JObj [("b", JInt 2)]]);
    ("{" +:+ quoted "title" +:+ ": " +:+ quoted "Internal Server Error" +:+ "}",
       JObj [("title", JStr "Internal Server Error")]);
    (page_text "1, 2" "3", page_value [JInt 1; JInt 2] 3);
    (page_text "3" "3", page_value [JInt 3] 3);
    (page_text "4, 5" "3", page_value [JInt 4; JInt 5] 3) ].

Definition sample_loads (s : string) : result json :=
  match List.find (fun kv => String.eqb kv.1 s) sample_documents with
  | Some kv => Done kv.2
  | None => Raised JSONDecodeError
  end.

(** A server that answers the n-th request with the n-th reply of a script
    and is unreachable afterwards. *)
Definition scripted (script : list response) : nat -> request -> reply :=
  fun n _ => match script !! n with Some r => Reply r | None => NoReply end.

(** A world with nothing on stdin, the given server and readable names, and
    no effect recorded yet. *)
Definition fresh (srv : nat -> request -> reply) (readable : json -> bool) : world :=
  World "" srv 0 readable [].

Definition offline : nat -> request -> reply := fun _ _ => NoReply.

Definition no_files : json -> bool := fun _ => false.

(** The file system on which exactly ["/tmp/logo.png"] can be opened. *)
Definition only_logo : json -> bool :=
  fun name => match name with
              | JStr p => String.eqb p "/tmp/logo.png"
              | _ => false
              end.

Definition listing_url : string :=
  "https://api.bigcommerce.com/stores/abc123/v3/catalog/products".

(** Three pages of a listing, each reporting three pages in total. *)
Definition three_pages : list response :=
  [ Response 200 (page_text "1, 2" "3");
    Response 200 (page_text "3" "3");
    Response 200 (page_text "4, 5" "3") ].

(** The same listing when the second request is answered with a 500. *)
Definition failing_second_page : list response :=
  [ Response 200 (page_text "1, 2" "3");
    Response 500 ("{" +:+ quoted "title" +:+ ": " +:+ quoted "Internal Server Error" +:+ "}");
    Response 200 (page_text "4, 5" "3") ].

(** A fragment of [str.format]: a template without braces comes back
    unchanged; templates with replacement fields are outside this fragment
    and rejected here. *)
Definition format_plain (template : string) (kwargs : list (string * string))
    : result string :=
  if Str.contains template "{" || Str.contains template "}"
  then Raised KeyError
  else Done template.

(** The commands compiled from the shipped tree. *)
Definition shipped_commands : list compiled :=
  match build_commands commands_structure with
  | Done cs => cs
  | _ => []
  end.

Definition has_key (k : string) (a : action) : bool :=
  match lit_get k a with Some _ => true | None => false end.

Definition is_none (l : lit) : bool :=
  match l with LNone => true | _ => false end.

(** The command [products add] of the shipped tree. *)
Definition products_add : compiled :=
  Compiled ["products"] (LStr "add") "v3/catalog/products"
    [("action", LStr "add"); ("method", LStr "POST")].

(** ** Vocabulary of the statements *)

Definition is_mapping (v : json) : bool :=
  match v with JObj _ => true | _ => false end.

Definition is_mapping_seq (v : json) : bool :=
  match v with JArr items => forallb is_mapping items | _ => false end.

(** The GET that the paginated loop sends for [page] when [params] is a
    mapping or falsy. *)
Definition page_query (params : option json) (page : Z) : dict :=
  match params with
  | Some (JObj (kv :: d)) => Dict.set "page" (JInt page) (kv :: d)
  | _ => [("page", JInt page)]
  end.

Definition page_request (url : string) (headers : list (string * option string))
    (params : option json) (page : Z) : request :=
  Request "GET" url headers None None (Some (JObj (page_query params page))) None.

Definition mapping_or_falsy (params : option json) : bool :=
  match params with
  | Some p => negb (truthy p) || is_mapping p
  | None => true
  end.

(** The request of a non-paginated [make_request] with a [str] method. *)
Definition single_request (m endpoint : string) (data params : option json)
    (store_hash auth_token : string) (files : option (lit * json)) : request :=
  Request (Str.upper m) (api_url store_hash endpoint) (api_headers auth_token files)
    (match files with None => data | Some _ => None end)
    (match files with None => None | Some _ => data end)
    params files.

(** The world once [req] has been sent. *)
Definition sent_one (w : world) (req : request) : world :=
  World (stdin w) (server w) (S (sent w)) (disk w) (trace w ++ [EvRequest req]).

(** The world once [events] have been recorded. *)
Definition recorded (w : world) (events : list event) : world :=
  World (stdin w) (server w) (sent w) (disk w) (trace w ++ events).

(** What [handle_request] prints when [verbose] is set. *)
Definition verbose_prints (verbose : bool) (endpoint : string) (request_data : json)
    : list event :=
  if verbose then
    [EvPrint Stderr "Endpoint:" (Some (JStr endpoint));
     EvPrint Stderr "Request Data:" (Some request_data)]
  else [].

Definition is_post_or_put (m : string) : bool := String.eqb m "POST" || String.eqb m "PUT".

(** A computation that, from any world, only records events satisfying
    [P]. *)
Definition emits {A} (P : event -> Prop) (m : M A) : Prop :=
  forall w, exists events, trace (m w).2 = trace w ++ events /\ Forall P events.

Definition is_request (e : event) : Prop :=
  match e with EvRequest _ => True | _ => False end.

Definition is_print_or_request (e : event) : Prop :=
  match e with EvRequest _ | EvPrint _ _ _ => True | _ => False end.

Definition not_open (e : event) : Prop :=
  match e with EvOpen _ => False | _ => True end.

(** A request that carries the file and nothing else of the payload. *)
Definition sends_only_file (r : request) : Prop :=
  is_Some (req_files r) /\ req_json r = None /\ req_data r = None
  /\ req_params r = None.

(** [name] was opened at some point of [events] and not closed since. *)
Definition still_open (events : list event) (name : json) : Prop :=
  exists before after,
    events = before ++ EvOpen name :: after
    /\ Forall (fun e => e <> EvClose name) after.

(** [r] is a 200 response whose body is an object, whose [data] (empty when
    absent) is the array [items], and whose total page count compares to
    [page] as [last] says: [last] is [page >= total_pages]. *)
Definition page_reply (json_loads : string -> result json) (page : Z)
    (r : response) (items : list json) (last : bool) : Prop :=
  exists body total,
    status_code r = 200%Z
    /\ json_loads (content r) = Done (JObj body)
    /\ py_get (JObj body) "data" (JArr []) = Done (JArr items)
    /\ total_pages_field (JObj body) = Done total
    /\ py_int_ge page total = Done last.

(** From its [n]-th request on, the server answers the GETs for the pages
    [page], [page + 1], ... with the given replies, none of them the last
    page. *)
Fixpoint continuing_pages (json_loads : string -> result json)
    (srv : nat -> request -> reply) (mk : Z -> request) (n : nat) (page : Z)
    (pages : list (response * list json)) : Prop :=
  match pages with
  | [] => True
  | p :: pages' =>
      srv n (mk page) = Reply p.1
      /\ page_reply json_loads page p.1 p.2 false
      /\ continuing_pages json_loads srv mk (S n) (page + 1) pages'
  end.

(** The world once the requests [mk first], [mk (first + 1)], ... ([count]
    of them) have been sent and answered. *)
Definition after_requests (w : world) (mk : Z -> request) (first : Z) (count : nat) : world :=
  World (stdin w) (server w) (sent w + count) (disk w)
        (trace w ++ ((fun i => EvRequest (mk (first + Z.of_nat i)%Z)) <$> seq 0 count)).


(** A run that ends the way the code reports a condition to the user: one
    line on stderr, then [sys.exit] (as for a command without endpoint). *)
Definition reported {A} (before : world) (r : result A * world) : Prop :=
  exists code text,
    r.1 = Raised (SystemExit code) /\
    trace r.2 = trace before ++ [EvPrint Stderr text None].

(** ** Further vocabulary *)

(** What [parse_input_data] makes of a text: the decoded value, the text
    itself when it is not JSON, or the decoder's other exception. *)
Definition resolve (json_loads : string -> result json) (s : string) : result json :=
  match json_loads s with
  | Raised JSONDecodeError => Done (JStr s)
  | other => other
  end.

(** The decoder returns on [s] or rejects it as not being JSON. *)
Definition quiet (json_loads : string -> result json) (s : string) : Prop :=
  exists v, resolve json_loads s = Done v.

(** The world with nothing left on stdin. *)
Definition drained (w : world) : world :=
  World "" (server w) (sent w) (disk w) (trace w).

(** A token list of odd length whose last token is a flag. *)
Definition dangling (unknown_args : list string) : bool :=
  Nat.odd (length unknown_args)
  && match last unknown_args with
     | Some flag => Str.startswith flag "--"
     | None => false
     end.

(** Every request is a GET without body or files whose query carries
    ['page']. *)
Definition is_page_get (e : event) : Prop :=
  match e with
  | EvRequest r =>
      req_method r = "GET" /\ req_json r = None /\ req_data r = None
      /\ req_files r = None
      /\ exists q page, req_params r = Some (JObj q)
                        /\ Dict.get "page" q = Some (JInt page)
  | _ => False
  end.

(** The actions [build_commands] visits: those of the top-level commands and
    of their direct subcommands, in order. *)
Definition visible_actions (structure : list command_dict) : list action :=
  structure ≫= (fun cmd => actions cmd ++ (subcommands cmd ≫= actions)).

(** The tree without the subcommands of subcommands. *)
Definition prune_nested (cmd : command_dict) : command_dict :=
  CommandDict (command cmd) (endpoint cmd) (actions cmd)
    ((fun sub => CommandDict (command sub) (endpoint sub) (actions sub) [])
       <$> subcommands cmd).

(** ** Placeholders of an endpoint template *)

(** The groups that [re.findall] returns for the pattern "an opening brace,
    as few characters as possible other than a line feed, a closing brace":
    [inside] is the text read since the opening brace, if one is pending. *)
Fixpoint scan_placeholders (s : string) (inside : option string) : list string :=
  match s with
  | EmptyString => []
  | String c s' =>
      match inside with
      | None =>
          if Ascii.eqb c "{" then scan_placeholders s' (Some EmptyString)
          else scan_placeholders s' None
      | Some name =>
          if Ascii.eqb c "}" then name :: scan_placeholders s' None
          else if Ascii.eqb c (ascii_of_nat 10) then scan_placeholders s' None
          else scan_placeholders s' (Some (name +:+ String c EmptyString))
      end
  end.

Definition find_placeholders (endpoint_template : string) : list string :=
  scan_placeholders endpoint_template None.

(** [f'--{placeholder.replace("_", "-")}'] *)
Definition option_name (placeholder : string) : string :=
  "--" +:+ Str.replace placeholder "_" "-".

(** The option declarations [add_action_commands] makes for a command
    dictionary: one per placeholder, with the alias [--id] when the template
    has exactly one placeholder; none without ['endpoint']. *)
Definition placeholder_options (c : command_dict) : list (list string) :=
  match endpoint c with
  | None => []
  | Some e =>
      let placeholders := find_placeholders e in
      (fun placeholder =>
         option_name placeholder
           :: (if (length placeholders =? 1)%nat then ["--id"] else []))
        <$> placeholders
  end.

(** ** More sample data *)

(** A listing page whose page count is not a number. *)
Definition nan_page_text : string :=
  "{" +:+ quoted "meta" +:+ ": {" +:+ quoted "pagination" +:+ ": {"
      +:+ quoted "total_pages" +:+ ": NaN}}}".

(** [sample_loads] with one more document. *)
Definition more_loads (s : string) : result json :=
  if String.eqb s nan_page_text
  then Done (JObj [("meta", JObj [("pagination", JObj [("total_pages", JFloat FNan)])])])
  else sample_loads s.

(** A server that answers every request with the same response. *)
Definition always (r : response) : nat -> request -> reply := fun _ _ => Reply r.

(** A command whose resource has no endpoint. *)
Definition category_get : compiled :=
  Compiled ["category"] (LStr "get") ""
    [("action", LStr "get"); ("method", LStr "GET")].

(** The UTF-8 encoding of the no-break space U+00A0, and a line feed. *)
Definition nbsp : string := String (ascii_of_nat 194) (String (ascii_of_nat 160) EmptyString).
Definition newline : string := String (ascii_of_nat 10) EmptyString.

(** * Verification *)

(** ** Dictionaries *)

Lemma dict_get_set_eq k v d : Dict.get k (Dict.set k v d) = Some v.
Proof.
  induction d as [|[k' v'] d IH]; simpl.
  - by rewrite String.eqb_refl.
  - destruct (String.eqb k' k) eqn:E; simpl; rewrite E; done.
Qed.

Lemma dict_get_set_ne k k' v d :
  k <> k' -> Dict.get k' (Dict.set k v d) = Dict.get k' d.
Proof.
  intros Hne. induction d as [|[k0 v0] d IH]; simpl.
  - destruct (String.eqb k k') eqn:E; [apply String.eqb_eq in E; done | done].
  - destruct (String.eqb k0 k) eqn:E; simpl.
    + apply String.eqb_eq in E; subst k0.
      destruct (String.eqb k k') eqn:E'; [apply String.eqb_eq in E'; done | done].
    + destruct (String.eqb k0 k'); done.
Qed.

Lemma dict_get_set k k' v d :
  Dict.get k' (Dict.set k v d) = if String.eqb k k' then Some v else Dict.get k' d.
Proof.
  destruct (String.eqb k k') eqn:E.
  - apply String.eqb_eq in E; subst. apply dict_get_set_eq.
  - apply String.eqb_neq in E. by apply dict_get_set_ne.
Qed.

Lemma dict_map_lookup d k : dict_map d !! k = Dict.get k d.
Proof.
  unfold dict_map. induction d as [|[k' v] d IH]; simpl.
  - apply lookup_empty.
  - destruct (String.eqb k' k) eqn:E.
    + apply String.eqb_eq in E; subst. apply lookup_insert_eq.
    + apply String.eqb_neq in E. by rewrite lookup_insert_ne.
Qed.

Lemma dict_map_set k v d : dict_map (Dict.set k v d) = <[k := v]> (dict_map d).
Proof.
  apply map_eq; intros k'. rewrite dict_map_lookup, dict_get_set.
  destruct (String.eqb k k') eqn:E.
  - apply String.eqb_eq in E; subst. by rewrite lookup_insert_eq.
  - apply String.eqb_neq in E. by rewrite lookup_insert_ne, dict_map_lookup.
Qed.

(** A key of [other] reads, after [d.update(other)], the value of its last
    item in [other]; any other key reads what it read in [d]. *)
Lemma dict_get_update k d other :
  Dict.get k (Dict.update d other) =
  match Dict.get k (rev other) with
  | Some v => Some v
  | None => Dict.get k d
  end.
Proof.
  unfold Dict.update. revert d.
  induction other as [|[k0 v0] other IH] using rev_ind; intros d; [done|].
  rewrite fold_left_app, rev_app_distr; simpl.
  rewrite dict_get_set. destruct (String.eqb k0 k); [done | apply IH].
Qed.

Lemma dict_get_rev_unique k (d : dict) :
  NoDup d.*1 -> Dict.get k (rev d) = Dict.get k d.
Proof.
  induction d as [|[k0 v0] d IH]; [done|].
  simpl. rewrite NoDup_cons. intros [Hnotin Hnd].
  assert (Happ : forall (a b : dict), Dict.get k (a ++ b) =
            match Dict.get k a with Some v => Some v | None => Dict.get k b end).
  { intros a b. induction a as [|[ka va] a IHa]; simpl; [done|].
    destruct (String.eqb ka k); done. }
  rewrite Happ, IH by done. simpl.
  destruct (String.eqb k0 k) eqn:E; [|by destruct (Dict.get k d)].
  apply String.eqb_eq in E; subst k0.
  destruct (Dict.get k d) eqn:G; [|done].
  exfalso. apply Hnotin. clear -G.
  induction d as [|[k1 v1] d IH]; simpl in *; [done|].
  destruct (String.eqb k1 k) eqn:E.
  - apply String.eqb_eq in E; subst. left.
  - right. by apply IH.
Qed.

(** [d.update(other)] as a union of mappings, [other] taking precedence. *)
Lemma dict_map_update d other :
  NoDup other.*1 ->
  dict_map (Dict.update d other) = dict_map other ∪ dict_map d.
Proof.
  intros Hnd. apply map_eq; intros k.
  rewrite dict_map_lookup, dict_get_update, dict_get_rev_unique by done.
  rewrite lookup_union, !dict_map_lookup.
  destruct (Dict.get k other), (Dict.get k d); done.
Qed.

(** ** Computations *)

Ltac run := unfold bind, ret, raise, lift in *; simpl in *.

Lemma for_each_ext {A S} (f g : S -> A -> M S) xs :
  (forall s x w, f s x w = g s x w) ->
  forall s w, for_each f xs s w = for_each g xs s w.
Proof.
  intros Hfg. induction xs as [|x xs IH]; intros s w; simpl; [done|].
  unfold bind. rewrite Hfg. destruct (g s x w) as [[s'| |] w']; auto.
Qed.

Lemma for_each_fmap {A B S} (f : S -> B -> M S) (h : A -> B) xs :
  forall s w, for_each f (h <$> xs) s w = for_each (fun s x => f s (h x)) xs s w.
Proof.
  induction xs as [|x xs IH]; intros s w; simpl; [done|].
  unfold bind. destruct (f s (h x) w) as [[s'| |] w']; auto.
Qed.

Lemma list_pair_ind {A} (P : list A -> Prop) :
  P [] -> (forall x, P [x]) -> (forall x y l, P l -> P (x :: y :: l)) ->
  forall l, P l.
Proof.
  intros H0 H1 H2.
  assert (H : forall l, P l /\ forall x, P (x :: l)).
  { induction l as [|a l [IHa IHb]]; split; auto. }
  intros l. apply H.
Qed.

(** ** Argument merger *)

Section Merger.

Variable json_loads : string -> result json.

(** [parse_input_data] touches nothing but stdin. *)
Lemma parse_input_data_world s w :
  trace (parse_input_data json_loads s w).2 = trace w
  /\ sent (parse_input_data json_loads s w).2 = sent w
  /\ server (parse_input_data json_loads s w).2 = server w
  /\ disk (parse_input_data json_loads s w).2 = disk w.
Proof.
  unfold parse_input_data, stdin_read. run.
  destruct (String.eqb s "-"); simpl;
    match goal with |- context [json_loads ?x] => destruct (json_loads x) as [v|[]|] end;
    done.
Qed.

Lemma range_0_2_SS n :
  range_0_2 (S (S n)) = 0 :: ((fun i => 2 + i) <$> range_0_2 n).
Proof.
  unfold range_0_2.
  change (Nat.div2 (S (S (S n)))) with (S (Nat.div2 (S n))).
  rewrite <- cons_seq, fmap_cons. f_equal.
  rewrite <- fmap_S_seq, <- !list_fmap_compose.
  apply list_fmap_ext. intros _ k _. simpl. lia.
Qed.

Lemma additional_item_shift pre l acc j w :
  additional_item json_loads (pre ++ l) acc (length pre + j) w =
  additional_item json_loads l acc j w.
Proof.
  unfold additional_item.
  rewrite lookup_app_r by lia.
  replace (length pre + j - length pre) with j by lia.
  rewrite (lookup_app_r pre l (length pre + j + 1)) by lia.
  replace (length pre + j + 1 - length pre) with (j + 1) by lia.
  done.
Qed.

(** The indexed loop of [parse_additional_data] reads the tokens pair by
    pair. *)
Lemma parse_additional_loop_pairs l :
  forall acc w,
    for_each (additional_item json_loads l) (range_0_2 (length l)) acc w =
    consume_pairs json_loads acc l w.
Proof.
  induction l as [|x|x y l IH] using list_pair_ind; intros acc w.
  - done.
  - simpl. unfold additional_item. simpl. run.
    destruct (Str.startswith x "--"); done.
  - simpl length. rewrite range_0_2_SS. simpl.
    assert (Hrest : forall s w',
      for_each (additional_item json_loads (x :: y :: l))
        ((fun i => 2 + i) <$> range_0_2 (length l)) s w' =
      consume_pairs json_loads s l w').
    { intros s w'. rewrite for_each_fmap, <- IH.
      apply for_each_ext. intros s0 i w0.
      apply (additional_item_shift [x; y] l s0 i w0). }
    unfold bind at 1. unfold additional_item at 1. simpl.
    destruct (Str.startswith x "--"); run.
    + destruct (parse_input_data json_loads y w) as [[v| |] w']; auto.
    + apply Hrest.
Qed.

Lemma parse_additional_data_pairs unknown_args w :
  parse_additional_data json_loads unknown_args w =
  consume_pairs json_loads [] unknown_args w.
Proof. apply parse_additional_loop_pairs. Qed.

End Merger.

Section MergerPairs.

Variable json_loads : string -> result json.

Lemma consume_pairs_app E1 :
  Nat.Even (length E1) ->
  forall E2 acc w,
    consume_pairs json_loads acc (E1 ++ E2) w =
    (a <- consume_pairs json_loads acc E1 ;; consume_pairs json_loads a E2) w.
Proof.
  induction E1 as [|x|x y E1 IH] using list_pair_ind; intros Hev E2 acc w.
  - done.
  - destruct Hev as [n Hn]. simpl in Hn. lia.
  - assert (Hev' : Nat.Even (length E1)).
    { destruct Hev as [n Hn]. simpl in Hn. exists (n - 1). lia. }
    change ((x :: y :: E1) ++ E2) with (x :: y :: (E1 ++ E2)). simpl.
    destruct (Str.startswith x "--").
    + unfold bind.
      destruct (parse_input_data json_loads y w) as [[v| |] w']; auto.
    + by rewrite IH.
Qed.

(** Pairs under other keys leave the value read under [k] alone. *)
Lemma consume_pairs_get_other k E :
  forall acc w A w',
    k ∉ flag_keys E ->
    consume_pairs json_loads acc E w = (Done A, w') ->
    Dict.get k A = Dict.get k acc.
Proof.
  induction E as [|x|x y E IH] using list_pair_ind; intros acc w A w' Hk Hrun.
  - run. by inversion Hrun.
  - simpl in Hrun. destruct (Str.startswith x "--"); run; by inversion Hrun.
  - simpl in Hk, Hrun. destruct (Str.startswith x "--").
    + apply not_elem_of_cons in Hk as [Hne Hk].
      unfold bind in Hrun.
      destruct (parse_input_data json_loads y w) as [[v| |] w1]; try done.
      rewrite (IH _ _ _ _ Hk Hrun). apply dict_get_set_ne. congruence.
    + eauto.
Qed.

Lemma dict_set_keys k v d :
  (Dict.set k v d).*1 = if Dict.has k d then d.*1 else d.*1 ++ [k].
Proof.
  unfold Dict.has. induction d as [|[k0 v0] d IH]; csimpl; [done|].
  destruct (String.eqb k0 k) eqn:E; csimpl; [done|].
  rewrite IH. by destruct (Dict.get k d).
Qed.

Lemma dict_has_elem_of k d : Dict.has k d = false -> k ∉ d.*1.
Proof.
  unfold Dict.has. induction d as [|[k0 v0] d IH]; simpl.
  - intros _. apply not_elem_of_nil.
  - destruct (String.eqb k0 k) eqn:E; [done|].
    apply String.eqb_neq in E. intros H. apply not_elem_of_cons. split; auto.
Qed.

Lemma dict_set_NoDup k v d : NoDup d.*1 -> NoDup (Dict.set k v d).*1.
Proof.
  intros Hnd. rewrite dict_set_keys. destruct (Dict.has k d) eqn:E; [done|].
  apply NoDup_app. repeat split; [done| |apply NoDup_singleton].
  intros x Hx Hx'. apply list_elem_of_singleton in Hx'. subst.
  by apply (dict_has_elem_of _ _ E).
Qed.

Lemma consume_pairs_NoDup E :
  forall acc w A w',
    NoDup acc.*1 ->
    consume_pairs json_loads acc E w = (Done A, w') ->
    NoDup A.*1.
Proof.
  induction E as [|x|x y E IH] using list_pair_ind; intros acc w A w' Hnd Hrun.
  - run. by inversion Hrun; subst.
  - simpl in Hrun. destruct (Str.startswith x "--"); run; by inversion Hrun; subst.
  - simpl in Hrun. destruct (Str.startswith x "--"); [|eauto].
    unfold bind in Hrun.
    destruct (parse_input_data json_loads y w) as [[v| |] w1]; try done.
    eapply IH; [|exact Hrun]. by apply dict_set_NoDup.
Qed.

(** Reading the tokens records no effect. *)
Lemma consume_pairs_trace E :
  forall acc w, trace (consume_pairs json_loads acc E w).2 = trace w.
Proof.
  induction E as [|x|x y E IH] using list_pair_ind; intros acc w.
  - done.
  - simpl. by destruct (Str.startswith x "--").
  - simpl. destruct (Str.startswith x "--"); [|apply IH].
    pose proof (parse_input_data_world json_loads y w) as (Ht & _).
    unfold bind. destruct (parse_input_data json_loads y w) as [[v| |] w1]; try done.
    simpl in Ht. by rewrite IH.
Qed.

End MergerPairs.

Section MergerQuiet.

Variable json_loads : string -> result json.

Lemma parse_input_data_plain s w :
  s <> "-" -> parse_input_data json_loads s w = (resolve json_loads s, w).
Proof.
  intros Hs. unfold parse_input_data, resolve, bind, ret, raise, lift.
  apply String.eqb_neq in Hs. rewrite Hs. by destruct (json_loads s) as [v|[]|].
Qed.

Lemma parse_input_data_stdin w :
  parse_input_data json_loads "-" w
  = (resolve json_loads (Str.strip (stdin w)), drained w).
Proof.
  unfold parse_input_data, resolve, bind, ret, raise, lift, stdin_read, drained.
  cbn [String.eqb Ascii.eqb Bool.eqb]. simpl.
  by destruct (json_loads (Str.strip (stdin w))) as [v|[]|].
Qed.

Lemma dangling_cons2 x y E : dangling (x :: y :: E) = dangling E.
Proof.
  unfold dangling. cbn [length]. rewrite Nat.odd_succ_succ.
  destruct E as [|e E]; [done|]. by rewrite !last_cons_cons.
Qed.

(** When the decoder raises nothing but [JSONDecodeError] on the texts it is
    given (the value tokens and, if one of them is [-], what stdin holds),
    reading the tokens stops on [IndexError] exactly for a dangling flag. *)
Lemma consume_pairs_quiet E :
  (forall s, s ∈ E -> quiet json_loads s) ->
  forall acc w,
    ("-" ∈ E -> quiet json_loads "" /\ quiet json_loads (Str.strip (stdin w))) ->
    exists w',
      if dangling E
      then consume_pairs json_loads acc E w = (Raised IndexError, w')
      else exists A, consume_pairs json_loads acc E w = (Done A, w').
Proof.
  intros HE.
  induction E as [|x|x y E IH] using list_pair_ind; intros acc w Hstdin.
  - exists w. by exists acc.
  - exists w. unfold dangling. simpl.
    destruct (Str.startswith x "--"); [done | by exists acc].
  - rewrite dangling_cons2. simpl.
    assert (HE' : forall s, s ∈ E -> quiet json_loads s).
    { intros s Hs. apply HE. by do 2 apply list_elem_of_further. }
    assert (Hstdin' : "-" ∈ E ->
              quiet json_loads "" /\ quiet json_loads (Str.strip (stdin w))).
    { intros Hin. apply Hstdin. by do 2 apply list_elem_of_further. }
    destruct (Str.startswith x "--"); [|by apply IH].
    unfold bind. destruct (String.eqb y "-") eqn:Hy.
    + apply String.eqb_eq in Hy; subst y. rewrite parse_input_data_stdin.
      destruct Hstdin as [Hempty [v ->]];
        [apply list_elem_of_further, list_elem_of_here|].
      apply IH; [done|]. intros _. by split.
    + apply String.eqb_neq in Hy. rewrite parse_input_data_plain by done.
      destruct (HE y) as [v ->]; [apply list_elem_of_further, list_elem_of_here|].
      by apply IH.
Qed.

End MergerQuiet.

(** ** The merge of the primary value with the extra tokens *)

(** C1. When the primary input resolves to a JSON object [P] and the extra
    tokens parse to the mapping [A], the merged payload is [P] updated with
    [A]: as mappings it is the union of [A] and [P] in which [A] wins on
    common keys, and a key given several times among the extra tokens
    carries the value of its last occurrence. *)
Theorem merge_object_with_extras json_loads args_data unknown_args P A w w1 w2 :
  primary_data json_loads args_data w = (Done (JObj P), w1) ->
  parse_additional_data json_loads unknown_args w1 = (Done A, w2) ->
  let merged := Dict.update P A in
  construct_request_data json_loads args_data unknown_args w = (Done (JObj merged), w2)
  /\ dict_map merged = dict_map A ∪ dict_map P
  /\ (forall k, Dict.get k merged =
                match Dict.get k A with Some v => Some v | None => Dict.get k P end)
  /\ (forall E1 flag value E2,
        unknown_args = E1 ++ flag :: value :: E2 ->
        Nat.Even (length E1) ->
        Str.startswith flag "--" = true ->
        flag_key flag ∉ flag_keys E2 ->
        exists A1 wa v wb,
          parse_additional_data json_loads E1 w1 = (Done A1, wa)
          /\ parse_input_data json_loads value wa = (Done v, wb)
          /\ Dict.get (flag_key flag) merged = Some v).
Proof.
  intros Hprim Hextra merged.
  assert (Hnd : NoDup A.*1).
  { rewrite parse_additional_data_pairs in Hextra.
    eapply consume_pairs_NoDup; [|exact Hextra]. apply NoDup_nil_2. }
  assert (Hget : forall k, Dict.get k merged =
            match Dict.get k A with Some v => Some v | None => Dict.get k P end).
  { intros k. unfold merged. by rewrite dict_get_update, dict_get_rev_unique. }
  repeat split.
  - unfold construct_request_data, bind. rewrite Hprim, Hextra. done.
  - by apply dict_map_update.
  - exact Hget.
  - intros E1 flag value E2 -> Hev Hflag Hlast.
    rewrite parse_additional_data_pairs, consume_pairs_app in Hextra by done.
    unfold bind in Hextra.
    destruct (consume_pairs json_loads [] E1 w1) as [[A1| |] wa] eqn:HE1; try done.
    simpl in Hextra. rewrite Hflag in Hextra. unfold bind in Hextra.
    destruct (parse_input_data json_loads value wa) as [[v| |] wb] eqn:Hv; try done.
    exists A1, wa, v, wb. repeat split; [by rewrite parse_additional_data_pairs | done |].
    rewrite Hget, (consume_pairs_get_other _ _ _ _ _ _ _ Hlast Hextra).
    by rewrite dict_get_set_eq.
Qed.

Lemma merge_object_with_extras_witness :
  let w := fresh offline no_files in
  construct_request_data sample_loads
    (Some ("{" +:+ quoted "a" +:+ ": 1, " +:+ quoted "b" +:+ ": 2}"))
    ["--b"; "3"; "--c-d"; "x"; "--b"; "4"] w
  = (Done (JObj [("a", JInt 1); ("b", JInt 4); ("c_d", JStr "x")]), w).
Proof.
  intros w.
  exact (proj1 (merge_object_with_extras sample_loads
    (Some ("{" +:+ quoted "a" +:+ ": 1, " +:+ quoted "b" +:+ ": 2}"))
    ["--b"; "3"; "--c-d"; "x"; "--b"; "4"]
    [("a", JInt 1); ("b", JInt 2)]
    [("b", JInt 4); ("c_d", JStr "x")]
    w w w eq_refl eq_refl)).
Defined.

Lemma update_each_mappings (elements : list dict) A :
  update_each (JObj <$> elements) A
  = Done ((fun d => JObj (Dict.update d A)) <$> elements).
Proof.
  induction elements as [|d ds IH]; [done|]. csimpl. by rewrite IH.
Qed.

Lemma update_each_not_mappings items A :
  forallb is_mapping items = false -> update_each items A = Raised AttributeError.
Proof.
  induction items as [|item items IH]; [done|].
  simpl. destruct item; simpl; try done.
  intros H. by rewrite IH.
Qed.

(** C4. When the primary input resolves to a sequence of mappings, every
    element is updated with the whole extra-token mapping, the extra keys
    taking precedence over the element's own fields. *)
Theorem merge_sequence_with_extras json_loads args_data unknown_args
    (elements : list dict) A w w1 w2 :
  primary_data json_loads args_data w = (Done (JArr (JObj <$> elements)), w1) ->
  parse_additional_data json_loads unknown_args w1 = (Done A, w2) ->
  construct_request_data json_loads args_data unknown_args w
    = (Done (JArr ((fun d => JObj (Dict.update d A)) <$> elements)), w2)
  /\ (forall d, d ∈ elements ->
        dict_map (Dict.update d A) = dict_map A ∪ dict_map d
        /\ forall k, Dict.get k (Dict.update d A) =
                     match Dict.get k A with Some v => Some v | None => Dict.get k d end).
Proof.
  intros Hprim Hextra. split.
  - unfold construct_request_data, bind. rewrite Hprim, Hextra.
    unfold lift. by rewrite update_each_mappings.
  - intros d _.
    assert (Hnd : NoDup A.*1).
    { rewrite parse_additional_data_pairs in Hextra.
      eapply consume_pairs_NoDup; [|exact Hextra]. apply NoDup_nil_2. }
    split; [by apply dict_map_update|].
    intros k. by rewrite dict_get_update, dict_get_rev_unique.
Qed.

Lemma merge_sequence_with_extras_witness :
  let w := fresh offline no_files in
  construct_request_data sample_loads
    (Some ("[{" +:+ quoted "a" +:+ ": 1}, {" +:+ quoted "b" +:+ ": 2}]"))
    ["--a"; "9"] w
  = (Done (JArr [JObj [("a", JInt 9)]; JObj [("b", JInt 2); ("a", JInt 9)]]), w).
Proof.
  intros w.
  exact (proj1 (merge_sequence_with_extras sample_loads
    (Some ("[{" +:+ quoted "a" +:+ ": 1}, {" +:+ quoted "b" +:+ ": 2}]"))
    ["--a"; "9"]
    [[("a", JInt 1)]; [("b", JInt 2)]]
    [("a", JInt 9)]
    w w w eq_refl eq_refl)).
Defined.

(** C10. There is an extra-token list of odd length whose last token starts
    with [--] on which [parse_additional_data] raises [IndexError]: it
    returns no mapping and reports nothing. *)
Theorem dangling_flag_index_error :
  exists unknown_args flag,
    Nat.Odd (length unknown_args)
    /\ last unknown_args = Some flag
    /\ Str.startswith flag "--" = true
    /\ forall json_loads w,
         parse_additional_data json_loads unknown_args w = (Raised IndexError, w).
Proof.
  exists ["--name"], "--name". repeat split; try done.
  by exists 0.
Qed.

(** C6. A primary value that is neither a mapping nor a sequence of mappings
    makes the merge step raise: it never returns a payload and writes
    nothing.  It raises [AttributeError] once the extra tokens have been
    read, and otherwise the exception that reading them raised; when the
    decoder raises nothing but [JSONDecodeError] on the texts it is given
    (the value tokens and, if one of them is [-], what stdin holds), the
    exception is [IndexError] when the tokens end on a dangling flag and
    [AttributeError] when they do not. *)
Theorem merge_unsupported_shape_raises json_loads args_data unknown_args v w w1 :
  primary_data json_loads args_data w = (Done v, w1) ->
  is_mapping v = false ->
  is_mapping_seq v = false ->
  let run := construct_request_data json_loads args_data unknown_args w in
  (forall v' w', run <> (Done v', w'))
  /\ trace run.2 = trace w
  /\ (forall A w2,
        parse_additional_data json_loads unknown_args w1 = (Done A, w2) ->
        run = (Raised AttributeError, w2))
  /\ (forall e w2,
        parse_additional_data json_loads unknown_args w1 = (Raised e, w2) ->
        run = (Raised e, w2))
  /\ ((forall s, s ∈ unknown_args -> quiet json_loads s) ->
      ("-" ∈ unknown_args ->
       quiet json_loads "" /\ quiet json_loads (Str.strip (stdin w1))) ->
      exists w2,
        run = (Raised (if dangling unknown_args then IndexError else AttributeError), w2)).
Proof.
  intros Hprim Hmap Hseq run.
  assert (Hdone : forall A w2,
    parse_additional_data json_loads unknown_args w1 = (Done A, w2) ->
    run = (Raised AttributeError, w2)).
  { intros A w2 Hextra. unfold run, construct_request_data, bind.
    rewrite Hprim, Hextra.
    destruct v; try done. simpl in Hseq. unfold lift.
    by rewrite update_each_not_mappings. }
  assert (Hraise : forall e w2,
    parse_additional_data json_loads unknown_args w1 = (Raised e, w2) ->
    run = (Raised e, w2)).
  { intros e w2 Hextra. unfold run, construct_request_data, bind.
    by rewrite Hprim, Hextra. }
  assert (Hnever : forall v' w', run <> (Done v', w')).
  { intros v' w' Hrun.
    destruct (parse_additional_data json_loads unknown_args w1) as [[A| |] w2] eqn:Hextra.
    - rewrite (Hdone A w2 eq_refl) in Hrun. discriminate Hrun.
    - rewrite (Hraise e w2 eq_refl) in Hrun. discriminate Hrun.
    - unfold run, construct_request_data, bind in Hrun.
      rewrite Hprim, Hextra in Hrun. discriminate Hrun. }
  assert (Htrace : trace run.2 = trace w).
  { assert (Ht1 : trace w1 = trace w).
    { unfold primary_data in Hprim. destruct args_data as [s|]; [|by inversion Hprim].
      destruct (Str.nonempty s); [|by inversion Hprim].
      pose proof (parse_input_data_world json_loads s w) as (Ht & _).
      by rewrite Hprim in Ht. }
    pose proof (consume_pairs_trace json_loads unknown_args [] w1) as Ht2.
    rewrite <- parse_additional_data_pairs in Ht2.
    unfold run, construct_request_data, bind. rewrite Hprim.
    destruct (parse_additional_data json_loads unknown_args w1) as [[A| |] w2];
      simpl in Ht2; assert (Ht3 : trace w2 = trace w) by congruence; try done.
    destruct v; try done.
    unfold lift, bind. by destruct (update_each items A). }
  split; [exact Hnever|]. split; [exact Htrace|].
  split; [exact Hdone|]. split; [exact Hraise|].
  intros HE Hstdin.
  destruct (consume_pairs_quiet json_loads unknown_args HE [] w1 Hstdin) as [w2 H].
  rewrite <- parse_additional_data_pairs in H.
  exists w2. destruct (dangling unknown_args).
  - by apply Hraise.
  - destruct H as [A HA]. by apply (Hdone A).
Qed.

Lemma merge_unsupported_shape_raises_witness :
  let w := fresh offline no_files in
  construct_request_data sample_loads (Some "5") ["--name"; "x"] w
  = (Raised AttributeError, w).
Proof.
  intros w.
  exact (proj1 (proj2 (proj2 (merge_unsupported_shape_raises sample_loads (Some "5")
    ["--name"; "x"] (JInt 5) w w eq_refl eq_refl eq_refl)))
    [("name", JStr "x")] w eq_refl).
Defined.

(** ** Pagination *)

Section Pagination.

Variable json_loads : string -> result json.
Variables (url : string) (headers : list (string * option string)).
Variable params : option json.
Hypothesis params_ok : mapping_or_falsy params = true.

Local Abbreviation mk := (page_request url headers params).

Lemma paginated_params_ok page :
  paginated_params params page = Done (page_query params page).
Proof.
  unfold paginated_params, page_query, mapping_or_falsy in *.
  destruct params as [p|]; [|done].
  destruct (truthy p) eqn:Ht; simpl in params_ok.
  - destruct p; try done. by destruct fields.
  - destruct p; try done. by destruct fields.
Qed.

Lemma after_requests_0 w first : after_requests w mk first 0 = w.
Proof.
  destruct w. unfold after_requests. simpl.
  by rewrite Nat.add_0_r, app_nil_r.
Qed.

Lemma after_requests_add w first n m :
  after_requests (after_requests w mk first n) mk (first + Z.of_nat n) m
  = after_requests w mk first (n + m).
Proof.
  unfold after_requests. cbn [stdin server sent disk trace]. f_equal; [lia|].
  rewrite <- app_assoc. f_equal.
  rewrite seq_app, fmap_app. f_equal.
  replace (0 + n) with (n + 0) by lia.
  rewrite <- (fmap_add_seq n 0 m), <- list_fmap_compose.
  apply list_fmap_ext. intros _ i _. unfold compose. do 2 f_equal. lia.
Qed.

Lemma after_requests_S w first count :
  after_requests (after_requests w mk first 1) mk (first + 1) count
  = after_requests w mk first (S count).
Proof. apply (after_requests_add w first 1 count). Qed.

(** One request of the loop, answered by [r]. *)
Lemma paginated_request_sent page r w :
  server w (sent w) (mk page) = Reply r ->
  requests_get url headers (Some (JObj (page_query params page))) w
  = (Done r, after_requests w mk page 1).
Proof.
  intros Hsrv. unfold requests_get, requests_request, transport.
  change (Request (Str.upper "get") url headers None None
            (Some (JObj (page_query params page))) None) with (mk page).
  rewrite Hsrv. unfold after_requests. simpl.
  by rewrite Z.add_0_r, Nat.add_1_r.
Qed.

(** An iteration on a page that is not the last one. *)
Lemma paginated_loop_continue fuel results page r items w :
  server w (sent w) (mk page) = Reply r ->
  page_reply json_loads page r items false ->
  paginated_loop json_loads (S fuel) url headers params results page w
  = paginated_loop json_loads fuel url headers params (results ++ items) (page + 1)
      (after_requests w mk page 1).
Proof.
  intros Hsrv (body & total & Hst & Hbody & Hdata & Htotal & Hge).
  cbn [paginated_loop]. unfold bind at 1. unfold lift at 1.
  rewrite paginated_params_ok.
  unfold bind at 1. rewrite (paginated_request_sent _ _ _ Hsrv).
  rewrite Hst. cbn [Z.eqb Pos.eqb negb].
  unfold bind, response_json, lift, ret.
  rewrite Hbody, Hdata. cbn [py_iter]. by rewrite Htotal, Hge.
Qed.

(** An iteration on the last page. *)
Lemma paginated_loop_last fuel results page r items w :
  server w (sent w) (mk page) = Reply r ->
  page_reply json_loads page r items true ->
  paginated_loop json_loads (S fuel) url headers params results page w
  = (Done (JObj [("data", JArr (results ++ items))]), after_requests w mk page 1).
Proof.
  intros Hsrv (body & total & Hst & Hbody & Hdata & Htotal & Hge).
  cbn [paginated_loop]. unfold bind at 1. unfold lift at 1.
  rewrite paginated_params_ok.
  unfold bind at 1. rewrite (paginated_request_sent _ _ _ Hsrv).
  rewrite Hst. cbn [Z.eqb Pos.eqb negb].
  unfold bind, response_json, lift, ret.
  rewrite Hbody, Hdata. cbn [py_iter]. by rewrite Htotal, Hge.
Qed.

(** An iteration on a response whose status is not 200. *)
Lemma paginated_loop_error fuel results page r body w :
  server w (sent w) (mk page) = Reply r ->
  status_code r <> 200%Z ->
  json_loads (content r) = Done body ->
  paginated_loop json_loads (S fuel) url headers params results page w
  = (Done body, after_requests w mk page 1).
Proof.
  intros Hsrv Hst Hbody.
  cbn [paginated_loop]. unfold bind at 1. unfold lift at 1.
  rewrite paginated_params_ok.
  unfold bind at 1. rewrite (paginated_request_sent _ _ _ Hsrv).
  apply Z.eqb_neq in Hst. rewrite Hst. cbn [negb].
  unfold response_json, ret. by rewrite Hbody.
Qed.

(** The loop runs through a prefix of continuing pages. *)
Lemma paginated_loop_pages pages :
  forall fuel results page w,
    continuing_pages json_loads (server w) mk (sent w) page pages ->
    paginated_loop json_loads (length pages + fuel) url headers params results page w
    = paginated_loop json_loads fuel url headers params
        (results ++ concat (snd <$> pages)) (page + Z.of_nat (length pages))
        (after_requests w mk page (length pages)).
Proof.
  induction pages as [|[r items] pages IH]; intros fuel results page w Hserved.
  - simpl. by rewrite app_nil_r, Z.add_0_r, after_requests_0.
  - destruct Hserved as (Hsrv & Hpage & Hrest).
    change (length ((r, items) :: pages) + fuel) with (S (length pages + fuel)).
    rewrite (paginated_loop_continue _ _ _ _ _ _ Hsrv Hpage).
    rewrite IH.
    + rewrite after_requests_S.
      replace (page + 1 + Z.of_nat (length pages))%Z
        with (page + Z.of_nat (length ((r, items) :: pages)))%Z
        by (cbn [length]; lia).
      csimpl. by rewrite <- app_assoc.
    + unfold after_requests; simpl. by rewrite Nat.add_1_r.
Qed.

End Pagination.

Lemma page_query_lookup params page :
  Dict.get "page" (page_query params page) = Some (JInt page)
  /\ forall k, k <> "page" ->
       Dict.get k (page_query params page)
       = match params with Some (JObj d) => Dict.get k d | _ => None end.
Proof.
  assert (Hone : forall k, k <> "page" -> Dict.get k [("page", JInt page)] = None).
  { intros k Hk. cbn [Dict.get]. destruct (String.eqb "page" k) eqn:E; [|done].
    apply String.eqb_eq in E. congruence. }
  unfold page_query. destruct params as [p|]; [|by split].
  destruct p; try by split.
  destruct fields as [|kv d]; [by split|]. split.
  - apply dict_get_set_eq.
  - intros k Hk. apply dict_get_set_ne. congruence.
Qed.

Lemma total_pages_field_cases body :
  total_pages_field (JObj body)
  = match Dict.get "meta" body with
    | None => Done (JInt 0)
    | Some (JObj meta) =>
        match Dict.get "pagination" meta with
        | None => Done (JInt 0)
        | Some (JObj pagination) =>
            Done (match Dict.get "total_pages" pagination with
                  | Some total => total
                  | None => JInt 0
                  end)
        | Some _ => Raised AttributeError
        end
    | Some _ => Raised AttributeError
    end.
Proof.
  unfold total_pages_field. cbn [py_get].
  destruct (Dict.get "meta" body) as [meta|]; [|done].
  destruct meta; try done. cbn [py_get].
  destruct (Dict.get "pagination" fields) as [pagination|]; [|done].
  by destruct pagination.
Qed.

(** C2. A paginated GET dispatch runs [make_paginated_request]: it starts
    at page 1 and sends the same GET, without body, whose query is the
    caller's parameters with [page] set to the current page number; the
    [data] array of every 200 response (empty when the field is absent) is
    appended to the results; the loop stops at the first page whose number is
    at least the response's [meta.pagination.total_pages] (0 when [meta],
    [pagination] or [total_pages] is absent) and returns one object whose
    [data] is everything collected, in request order.  With [n] pages before
    the last one, exactly [n + 1] requests are sent. *)
Theorem paginated_get_collects_pages json_loads url headers params
    (earlier : list (response * list json)) r items w fuel :
  mapping_or_falsy params = true ->
  continuing_pages json_loads (server w) (page_request url headers params)
    (sent w) 1 earlier ->
  server w (sent w + length earlier)
    (page_request url headers params (1 + Z.of_nat (length earlier))) = Reply r ->
  page_reply json_loads (1 + Z.of_nat (length earlier)) r items true ->
  length earlier < fuel ->
  make_paginated_request json_loads fuel url headers params w
  = (Done (JObj [("data", JArr (concat (snd <$> earlier) ++ items))]),
     after_requests w (page_request url headers params) 1 (length earlier + 1))
  /\ (forall page,
        let req := page_request url headers params page in
        req_method req = "GET" /\ req_url req = url /\ req_headers req = headers
        /\ req_json req = None /\ req_data req = None /\ req_files req = None
        /\ exists query,
             req_params req = Some (JObj query)
             /\ Dict.get "page" query = Some (JInt page)
             /\ forall k, k <> "page" ->
                  Dict.get k query
                  = match params with Some (JObj d) => Dict.get k d | _ => None end)
  /\ (forall endpoint data all_pages store_hash auth_token files w',
        lit_truthy all_pages = true ->
        make_request json_loads fuel (LStr "GET") endpoint data params all_pages
          store_hash auth_token files w'
        = make_paginated_request json_loads fuel (api_url store_hash endpoint)
            (api_headers auth_token files) params w')
  /\ (forall body,
        py_get (JObj body) "data" (JArr [])
        = Done (match Dict.get "data" body with
                | Some data => data
                | None => JArr []
                end))
  /\ (forall body,
        total_pages_field (JObj body)
        = match Dict.get "meta" body with
          | None => Done (JInt 0)
          | Some (JObj meta) =>
              match Dict.get "pagination" meta with
              | None => Done (JInt 0)
              | Some (JObj pagination) =>
                  Done (match Dict.get "total_pages" pagination with
                        | Some total => total
                        | None => JInt 0
                        end)
              | Some _ => Raised AttributeError
              end
          | Some _ => Raised AttributeError
          end)
  /\ (forall page total, py_int_ge page (JInt total) = Done (bool_decide (page >= total)%Z)).
Proof.
  intros Hparams Hpages Hsrv Hlast Hfuel.
  split; [|split; [|split; [|split; [|split]]]].
  - unfold make_paginated_request.
    replace fuel with (length earlier + S (fuel - length earlier - 1)) by lia.
    rewrite (paginated_loop_pages json_loads url headers params Hparams earlier _ _ _ _ Hpages).
    rewrite (paginated_loop_last json_loads url headers params Hparams _ _ _ r items).
    + by rewrite after_requests_add.
    + exact Hsrv.
    + exact Hlast.
  - intros page req. repeat split.
    exists (page_query params page). split; [done|]. apply page_query_lookup.
  - intros endpoint data all_pages store_hash auth_token files w' Hall.
    unfold make_request. cbn [lit_is]. by rewrite Hall.
  - intros body. cbn [py_get]. by destruct (Dict.get "data" body).
  - apply total_pages_field_cases.
  - intros page total. simpl. f_equal.
    destruct (total <=? page)%Z eqn:E.
    + apply Z.leb_le in E. rewrite bool_decide_eq_true_2; [done | lia].
    + apply Z.leb_gt in E. rewrite bool_decide_eq_false_2; [done | lia].
Qed.

Lemma paginated_get_collects_pages_witness :
  make_paginated_request sample_loads 3 listing_url []
    (Some (JObj [("page", JInt 9); ("limit", JInt 50)]))
    (fresh (scripted three_pages) no_files)
  = (Done (JObj [("data", JArr [JInt 1; JInt 2; JInt 3; JInt 4; JInt 5])]),
     World "" (scripted three_pages) 3 no_files
       [ EvRequest (Request "GET" listing_url [] None None
                      (Some (JObj [("page", JInt 1); ("limit", JInt 50)])) None);
         EvRequest (Request "GET" listing_url [] None None
                      (Some (JObj [("page", JInt 2); ("limit", JInt 50)])) None);
         EvRequest (Request "GET" listing_url [] None None
                      (Some (JObj [("page", JInt 3); ("limit", JInt 50)])) None) ]).
Proof.
  refine (proj1 (paginated_get_collects_pages sample_loads listing_url []
    (Some (JObj [("page", JInt 9); ("limit", JInt 50)]))
    [ (Response 200 (page_text "1, 2" "3"), [JInt 1; JInt 2]);
      (Response 200 (page_text "3" "3"), [JInt 3]) ]
    (Response 200 (page_text "4, 5" "3")) [JInt 4; JInt 5]
    (fresh (scripted three_pages) no_files) 3 eq_refl _ eq_refl _ _)).
  - simpl. repeat split;
      by eexists (cons _ _), (JInt 3); repeat split; vm_compute; reflexivity.
  - by eexists (cons _ _), (JInt 3); repeat split; vm_compute; reflexivity.
  - simpl. lia.
Defined.

(** C3. As soon as a page of a paginated GET is answered with a status other
    than 200, the loop returns that response's parsed body: what the earlier
    pages contributed is dropped and no further request is sent. *)
Theorem paginated_get_stops_on_error json_loads url headers params
    (earlier : list (response * list json)) r body w fuel :
  mapping_or_falsy params = true ->
  continuing_pages json_loads (server w) (page_request url headers params)
    (sent w) 1 earlier ->
  server w (sent w + length earlier)
    (page_request url headers params (1 + Z.of_nat (length earlier))) = Reply r ->
  status_code r <> 200%Z ->
  json_loads (content r) = Done body ->
  length earlier < fuel ->
  make_paginated_request json_loads fuel url headers params w
  = (Done body,
     after_requests w (page_request url headers params) 1 (length earlier + 1)).
Proof.
  intros Hparams Hpages Hsrv Hstatus Hbody Hfuel.
  unfold make_paginated_request.
  replace fuel with (length earlier + S (fuel - length earlier - 1)) by lia.
  rewrite (paginated_loop_pages json_loads url headers params Hparams earlier _ _ _ _ Hpages).
  rewrite (paginated_loop_error json_loads url headers params Hparams _ _ _ r body);
    [by rewrite after_requests_add | exact Hsrv | exact Hstatus | exact Hbody].
Qed.

Lemma paginated_get_stops_on_error_witness :
  make_paginated_request sample_loads 3 listing_url [] None
    (fresh (scripted failing_second_page) no_files)
  = (Done (JObj [("title", JStr "Internal Server Error")]),
     World "" (scripted failing_second_page) 2 no_files
       [ EvRequest (page_request listing_url [] None 1);
         EvRequest (page_request listing_url [] None 2) ]).
Proof.
  refine (paginated_get_stops_on_error sample_loads listing_url [] None
    [ (Response 200 (page_text "1, 2" "3"), [JInt 1; JInt 2]) ]
    (Response 500 ("{" +:+ quoted "title" +:+ ": " +:+ quoted "Internal Server Error" +:+ "}"))
    (JObj [("title", JStr "Internal Server Error")])
    (fresh (scripted failing_second_page) no_files) 3 eq_refl _ eq_refl _ eq_refl _).
  - simpl. repeat split;
      by eexists (cons _ _), (JInt 3); repeat split; vm_compute; reflexivity.
  - simpl. lia.
  - simpl. lia.
Defined.

(** ** What a computation records *)

Section Emits.

Context {P : event -> Prop}.

Lemma emits_ret {A} (a : A) : emits P (ret a).
Proof. intros w. exists []. by rewrite app_nil_r. Qed.

Lemma emits_raise {A} e : emits P (@raise A e).
Proof. intros w. exists []. by rewrite app_nil_r. Qed.

Lemma emits_lift {A} (r : result A) : emits P (lift r).
Proof. intros w. exists []. by rewrite app_nil_r. Qed.

Lemma emits_bind {A B} (m : M A) (k : A -> M B) :
  emits P m -> (forall a, emits P (k a)) -> emits P (bind m k).
Proof.
  intros Hm Hk w. unfold bind.
  destruct (Hm w) as (ev1 & Ht1 & HP1).
  destruct (m w) as [[a| |] w1]; simpl in Ht1; [|by exists ev1..].
  destruct (Hk a w1) as (ev2 & Ht2 & HP2).
  exists (ev1 ++ ev2). rewrite Ht2, Ht1, app_assoc. split; [done|].
  by apply Forall_app.
Qed.

Lemma emits_emit e : P e -> emits P (emit e).
Proof. intros He w. exists [e]. split; [done | by constructor]. Qed.

Lemma emits_stdin_read : emits P stdin_read.
Proof. intros w. exists []. by rewrite app_nil_r. Qed.

Lemma emits_for_each {A S} (body : S -> A -> M S) xs :
  (forall s x, emits P (body s x)) -> forall s, emits P (for_each body xs s).
Proof.
  intros Hbody. induction xs as [|x xs IH]; intros s; simpl.
  - apply emits_ret.
  - apply emits_bind; auto.
Qed.

Lemma emits_if {A} (b : bool) (m1 m2 : M A) :
  emits P m1 -> emits P m2 -> emits P (if b then m1 else m2).
Proof. by destruct b. Qed.

End Emits.

Lemma emits_weaken {A} (P Q : event -> Prop) (m : M A) :
  (forall e, P e -> Q e) -> emits P m -> emits Q m.
Proof.
  intros HPQ Hm w. destruct (Hm w) as (events & Ht & HP).
  exists events. split; [done|]. eapply Forall_impl; eauto.
Qed.

Lemma emits_transport r : emits is_request (transport r).
Proof.
  intros w. exists [EvRequest r]. unfold transport.
  destruct (server w (sent w) r); simpl; split; try done; by constructor.
Qed.

Section Dispatcher.

Variable json_loads : string -> result json.

Lemma emits_parse_input_data P s : emits P (parse_input_data json_loads s).
Proof.
  unfold parse_input_data. apply emits_bind.
  - apply emits_if; [|apply emits_ret].
    apply emits_bind; [apply emits_stdin_read | intros; apply emits_ret].
  - intros d. destruct (json_loads d) as [v|[]|];
      first [apply emits_ret | apply emits_raise | apply emits_lift].
Qed.

Lemma emits_construct_request_data P data unknown_args :
  emits P (construct_request_data json_loads data unknown_args).
Proof.
  unfold construct_request_data. apply emits_bind.
  - unfold primary_data. destruct data as [s|]; [|apply emits_ret].
    apply emits_if; [apply emits_parse_input_data | apply emits_ret].
  - intros v. apply emits_bind.
    + apply emits_for_each. intros acc i. unfold additional_item.
      destruct (unknown_args !! i); [|apply emits_raise].
      apply emits_if; [|apply emits_ret].
      destruct (unknown_args !! (i + 1)); [|apply emits_raise].
      apply emits_bind; [apply emits_parse_input_data | intros; apply emits_ret].
    + intros A. destruct v; try apply emits_raise; [|apply emits_ret].
      apply emits_bind; [apply emits_lift | intros; apply emits_ret].
Qed.

Lemma emits_response_json P r : emits P (response_json json_loads r).
Proof.
  unfold response_json. apply emits_lift.
Qed.

Lemma emits_requests_request method url headers j d p f :
  emits is_request (requests_request method url headers j d p f).
Proof.
  unfold requests_request. destruct method;
    [apply emits_raise | apply emits_transport | apply emits_raise].
Qed.

Lemma emits_paginated_loop fuel url headers params :
  forall results page,
    emits is_request (paginated_loop json_loads fuel url headers params results page).
Proof.
  induction fuel as [|fuel IH]; intros results page; cbn [paginated_loop].
  - apply emits_lift.
  - apply emits_bind; [apply emits_lift|]. intros pp.
    apply emits_bind; [apply emits_requests_request|]. intros response.
    apply emits_if; [apply emits_response_json|].
    apply emits_bind; [apply emits_response_json|]. intros json_response.
    apply emits_bind; [apply emits_lift|]. intros data.
    apply emits_bind; [apply emits_lift|]. intros items.
    apply emits_bind; [apply emits_lift|]. intros total_pages.
    apply emits_bind; [apply emits_lift|]. intros stop.
    apply emits_if; [apply emits_ret | apply IH].
Qed.

Lemma emits_make_request fuel method endpoint data params all_pages
    store_hash auth_token files :
  emits is_request
    (make_request json_loads fuel method endpoint data params all_pages
       store_hash auth_token files).
Proof.
  unfold make_request. apply emits_if.
  - apply emits_paginated_loop.
  - apply emits_bind; [apply emits_requests_request|]. intros response.
    apply emits_if; [|apply emits_response_json].
    apply emits_if; [apply emits_response_json | apply emits_ret].
Qed.

(** A non-paginated [make_request] with a [str] method sends exactly one
    request, whatever comes back. *)
Lemma make_request_single fuel m endpoint data params all_pages
    store_hash auth_token files w :
  lit_truthy all_pages && String.eqb m "GET" = false ->
  exists res,
    make_request json_loads fuel (LStr m) endpoint data params all_pages
      store_hash auth_token files w
    = (res, sent_one w (single_request m endpoint data params store_hash auth_token files)).
Proof.
  intros Hnp. unfold make_request. cbn [lit_is]. rewrite Hnp.
  unfold bind, requests_request, transport.
  fold (single_request m endpoint data params store_hash auth_token files).
  fold (sent_one w (single_request m endpoint data params store_hash auth_token files)).
  destruct (server w (sent w) _) as [r|]; [|by eexists].
  unfold response_json, ret, raise.
  destruct ((status_code r =? 200)%Z || (status_code r =? 204)%Z);
    [destruct (Str.nonempty (content r))|];
    try destruct (json_loads (content r)); by eexists.
Qed.

End Dispatcher.

(** ** Non-paginated dispatch *)

(** C7. A non-paginated dispatch returns the parsed body of a 200 or 204
    response whose body is not empty, the marker
    [{"status": code, "title": "No Content"}] for a 200 or 204 response with
    an empty body, and the parsed body of a response with any other status,
    as an ordinary result. *)
Theorem single_request_result json_loads fuel m endpoint data params all_pages
    store_hash auth_token files r w :
  lit_truthy all_pages && String.eqb m "GET" = false ->
  server w (sent w)
    (single_request m endpoint data params store_hash auth_token files) = Reply r ->
  let run := make_request json_loads fuel (LStr m) endpoint data params all_pages
               store_hash auth_token files w in
  let after := sent_one w
                 (single_request m endpoint data params store_hash auth_token files) in
  (status_code r = 200%Z \/ status_code r = 204%Z ->
   content r <> "" ->
   forall body, json_loads (content r) = Done body -> run = (Done body, after))
  /\ (status_code r = 200%Z \/ status_code r = 204%Z ->
      content r = "" ->
      run = (Done (JObj [("status", JInt (status_code r)); ("title", JStr "No Content")]),
             after))
  /\ (status_code r <> 200%Z -> status_code r <> 204%Z ->
      forall body, json_loads (content r) = Done body -> run = (Done body, after)).
Proof.
  intros Hnp Hsrv run after.
  assert (Hrun : run =
    (if ((status_code r =? 200) || (status_code r =? 204))%Z then
       if Str.nonempty (content r) then response_json json_loads r
       else ret (no_content r)
     else response_json json_loads r) after).
  { unfold run, make_request. cbn [lit_is]. rewrite Hnp.
    unfold bind, requests_request, transport.
    fold (single_request m endpoint data params store_hash auth_token files).
    by rewrite Hsrv. }
  rewrite Hrun. unfold response_json, ret, no_content. repeat split.
  - intros Hok Hne body Hbody.
    replace ((status_code r =? 200) || (status_code r =? 204))%Z with true
      by (destruct Hok as [-> | ->]; done).
    destruct (content r); [done|]. simpl. by rewrite Hbody.
  - intros Hok Hempty.
    replace ((status_code r =? 200) || (status_code r =? 204))%Z with true
      by (destruct Hok as [-> | ->]; done).
    by rewrite Hempty.
  - intros H200 H204 body Hbody.
    apply Z.eqb_neq in H200, H204. rewrite H200, H204. simpl. by rewrite Hbody.
Qed.

Lemma single_request_result_witness :
  let w := fresh (scripted [Response 204 ""]) no_files in
  make_request sample_loads 0 (LStr "DELETE") "v3/catalog/products/7" None None
    (LBool false) "abc123" "token" None w
  = (Done (JObj [("status", JInt 204); ("title", JStr "No Content")]),
     sent_one w (single_request "DELETE" "v3/catalog/products/7" None None
                   "abc123" "token" None)).
Proof.
  intros w.
  exact (proj1 (proj2 (single_request_result sample_loads 0 "DELETE"
    "v3/catalog/products/7" None None (LBool false) "abc123" "token" None
    (Response 204 "") w eq_refl eq_refl)) (or_intror eq_refl) eq_refl).
Defined.

(** ** Multipart dispatch *)

Section Multipart.

Variable json_loads : string -> result json.

Lemma handle_request_multipart fuel endpoint method all_pages k d path
    store_hash auth_token verbose w :
  Dict.get k d = Some (JStr path) ->
  disk w (JStr path) = true ->
  let rest := JObj (Dict.remove k d) in
  handle_request json_loads fuel endpoint method all_pages (LStr k) (JObj d)
    store_hash auth_token verbose w
  = make_request json_loads fuel method endpoint
      (if lit_is method "POST" || lit_is method "PUT" then Some rest else None)
      (if lit_is method "GET" then Some rest else None)
      all_pages store_hash auth_token (Some (LStr k, JStr path))
      (recorded w (EvOpen (JStr path) :: verbose_prints verbose endpoint rest)).
Proof.
  intros Hget Hdisk rest. unfold handle_request.
  unfold bind at 1. unfold lift at 1. cbn [py_in]. unfold Dict.has. rewrite Hget.
  unfold bind at 1. unfold bind at 1. unfold lift at 1. cbn [py_pop]. rewrite Hget.
  unfold bind at 1. cbn [fst snd py_open]. rewrite Hdisk.
  unfold bind at 1. unfold bind at 1. unfold emit at 1.
  unfold ret at 1. unfold ret at 1. cbn [fst snd].
  unfold bind at 1. unfold recorded, verbose_prints.
  destruct verbose; unfold bind, emit, ret; cbn [stdin server sent disk trace];
    rewrite <- ?app_assoc; done.
Qed.

Lemma handle_request_plain fuel endpoint method all_pages mp d
    store_hash auth_token verbose w :
  py_in mp (JObj d) = Done false ->
  handle_request json_loads fuel endpoint method all_pages mp (JObj d)
    store_hash auth_token verbose w
  = make_request json_loads fuel method endpoint
      (if lit_is method "POST" || lit_is method "PUT" then Some (JObj d) else None)
      (if lit_is method "GET" then Some (JObj d) else None)
      all_pages store_hash auth_token None
      (recorded w (verbose_prints verbose endpoint (JObj d))).
Proof.
  intros Hin. unfold handle_request.
  unfold bind at 1. unfold lift at 1. rewrite Hin.
  unfold bind at 1. unfold ret at 1. cbn [fst snd].
  unfold bind at 1. unfold recorded, verbose_prints.
  destruct verbose; unfold bind, emit, ret; cbn [stdin server sent disk trace];
    rewrite <- ?app_assoc, ?app_nil_r; try done.
  by destruct w.
Qed.

End Multipart.

Lemma dict_get_remove_eq k d : Dict.get k (Dict.remove k d) = None.
Proof.
  induction d as [|[k' v] d IH]; simpl; [done|].
  destruct (String.eqb k' k) eqn:E; simpl; [done | by rewrite E].
Qed.

Lemma dict_get_remove_ne k k' d :
  k <> k' -> Dict.get k' (Dict.remove k d) = Dict.get k' d.
Proof.
  intros Hne. induction d as [|[k0 v] d IH]; simpl; [done|].
  destruct (String.eqb k0 k) eqn:E; simpl.
  - apply String.eqb_eq in E; subst k0.
    destruct (String.eqb k k') eqn:E'; [apply String.eqb_eq in E'; done | done].
  - by rewrite IH.
Qed.

(** C5. A non-paginated dispatch whose multipart field names a key of the
    payload opens the key's value as a file, removes the key from the payload
    and sends one multipart request carrying the file under that field name,
    with no JSON body; the rest of the payload goes with it as form data for
    POST and PUT (as query parameters for GET).  When the key is absent no
    file is opened and POST and PUT carry the payload as their JSON body. *)
Theorem multipart_dispatch json_loads fuel endpoint m all_pages k d
    store_hash auth_token verbose w :
  lit_truthy all_pages && String.eqb m "GET" = false ->
  (forall path,
      Dict.get k d = Some (JStr path) ->
      disk w (JStr path) = true ->
      let rest := JObj (Dict.remove k d) in
      let req :=
        Request (Str.upper m) (api_url store_hash endpoint)
          (api_headers auth_token (Some (LStr k, JStr path)))
          None
          (if is_post_or_put m then Some rest else None)
          (if String.eqb m "GET" then Some rest else None)
          (Some (LStr k, JStr path)) in
      Dict.get k (Dict.remove k d) = None
      /\ (forall k', k <> k' -> Dict.get k' (Dict.remove k d) = Dict.get k' d)
      /\ exists res,
           handle_request json_loads fuel endpoint (LStr m) all_pages (LStr k) (JObj d)
             store_hash auth_token verbose w
           = (res, sent_one (recorded w (EvOpen (JStr path)
                                           :: verbose_prints verbose endpoint rest)) req))
  /\ (Dict.get k d = None ->
      let req :=
        Request (Str.upper m) (api_url store_hash endpoint)
          (api_headers auth_token None)
          (if is_post_or_put m then Some (JObj d) else None)
          None
          (if String.eqb m "GET" then Some (JObj d) else None)
          None in
      exists res,
        handle_request json_loads fuel endpoint (LStr m) all_pages (LStr k) (JObj d)
          store_hash auth_token verbose w
        = (res, sent_one (recorded w (verbose_prints verbose endpoint (JObj d))) req)).
Proof.
  intros Hnp. split.
  - intros path Hget Hdisk rest req. split; [apply dict_get_remove_eq|].
    split; [intros k' Hne; by apply dict_get_remove_ne|].
    rewrite (handle_request_multipart json_loads fuel endpoint (LStr m) all_pages
               k d path store_hash auth_token verbose w Hget Hdisk).
    apply (make_request_single json_loads fuel m endpoint _ _ all_pages store_hash
             auth_token (Some (LStr k, JStr path)) _ Hnp).
  - intros Hget req.
    rewrite handle_request_plain by (cbn [py_in]; unfold Dict.has; by rewrite Hget).
    apply (make_request_single json_loads fuel m endpoint _ _ all_pages store_hash
             auth_token None _ Hnp).
Qed.

Lemma multipart_dispatch_witness :
  let w := fresh (scripted [Response 200 "{}"]) only_logo in
  exists res,
    handle_request sample_loads 0 "v3/catalog/products/7/images" (LStr "POST")
      (LBool false) (LStr "image_file")
      (JObj [("image_file", JStr "/tmp/logo.png"); ("name", JStr "x")])
      "abc123" "token" false w
    = (res,
       World "" (scripted [Response 200 "{}"]) 1 only_logo
         [ EvOpen (JStr "/tmp/logo.png");
           EvRequest
             (Request "POST"
                "https://api.bigcommerce.com/stores/abc123/v3/catalog/products/7/images"
                [("X-Auth-Token", Some "token"); ("Accept", Some "application/json");
                 ("Content-Type", None)]
                None (Some (JObj [("name", JStr "x")])) None
                (Some (LStr "image_file", JStr "/tmp/logo.png"))) ]).
Proof.
  intros w.
  exact (proj2 (proj2 (proj1 (multipart_dispatch sample_loads 0
    "v3/catalog/products/7/images" "POST" (LBool false) "image_file"
    [("image_file", JStr "/tmp/logo.png"); ("name", JStr "x")]
    "abc123" "token" false w eq_refl) "/tmp/logo.png" eq_refl eq_refl))).
Defined.

(** The multipart request of [images add] carries the other payload fields
    next to the file. *)
Lemma multipart_sends_other_fields :
  let w := fresh (scripted [Response 200 "{}"]) only_logo in
  exists req,
    handle_request sample_loads 0 "v3/catalog/products/7/images" (LStr "POST")
      (LBool false) (LStr "image_file")
      (JObj [("image_file", JStr "/tmp/logo.png"); ("name", JStr "x")])
      "abc123" "token" false w
    = (Done (JObj []),
       World "" (scripted [Response 200 "{}"]) 1 only_logo
         [EvOpen (JStr "/tmp/logo.png"); EvRequest req])
    /\ req_files req = Some (LStr "image_file", JStr "/tmp/logo.png")
    /\ req_data req = Some (JObj [("name", JStr "x")])
    /\ ~ sends_only_file req.
Proof.
  intros w. eexists. split; [vm_compute; reflexivity|].
  split; [reflexivity|]. split; [reflexivity|].
  intros (_ & _ & Hdata & _). discriminate Hdata.
Qed.

(** C8. On every multipart dispatch the file is opened before any request
    is sent, and nothing closes it afterwards: whether the exchange completes
    or raises, the events that follow the opening are only prints and
    requests. *)
Theorem multipart_handle_left_open json_loads fuel endpoint method all_pages k d path
    store_hash auth_token verbose w :
  Dict.get k d = Some (JStr path) ->
  disk w (JStr path) = true ->
  exists rest,
    trace (handle_request json_loads fuel endpoint method all_pages (LStr k) (JObj d)
             store_hash auth_token verbose w).2
    = trace w ++ EvOpen (JStr path) :: rest
    /\ Forall is_print_or_request rest
    /\ still_open (trace w ++ EvOpen (JStr path) :: rest) (JStr path).
Proof.
  intros Hget Hdisk.
  rewrite (handle_request_multipart json_loads fuel endpoint method all_pages
             k d path store_hash auth_token verbose w Hget Hdisk).
  match goal with |- context [make_request ?a ?b ?c ?e ?f ?g ?h ?i ?j ?k ?w1] =>
    destruct (emits_make_request a b c e f g h i j k w1) as (events & Ht & Hev)
  end.
  exists (verbose_prints verbose endpoint (JObj (Dict.remove k d)) ++ events).
  assert (Hrest : Forall is_print_or_request
            (verbose_prints verbose endpoint (JObj (Dict.remove k d)) ++ events)).
  { apply Forall_app. split.
    - unfold verbose_prints. destruct verbose; repeat constructor.
    - eapply Forall_impl; [exact Hev|]. by intros []. }
  split; [|split; [exact Hrest|]].
  - rewrite Ht. unfold recorded. cbn [trace]. by rewrite <- app_assoc.
  - exists (trace w), (verbose_prints verbose endpoint (JObj (Dict.remove k d)) ++ events).
    split; [done|]. eapply Forall_impl; [exact Hrest|].
    intros e He ->. exact He.
Qed.

Lemma multipart_handle_left_open_witness :
  let w := fresh offline only_logo in
  exists rest,
    trace (handle_request sample_loads 0 "v3/catalog/products/7/images" (LStr "POST")
             (LBool false) (LStr "image_file")
             (JObj [("image_file", JStr "/tmp/logo.png")])
             "abc123" "token" false w).2
    = trace w ++ EvOpen (JStr "/tmp/logo.png") :: rest
    /\ Forall is_print_or_request rest
    /\ still_open (trace w ++ EvOpen (JStr "/tmp/logo.png") :: rest) (JStr "/tmp/logo.png").
Proof.
  intros w.
  exact (multipart_handle_left_open sample_loads 0 "v3/catalog/products/7/images"
    (LStr "POST") (LBool false) "image_file" [("image_file", JStr "/tmp/logo.png")]
    "/tmp/logo.png" "abc123" "token" false w eq_refl eq_refl).
Defined.

(** After the upload of [images add], answered or not, the file is still
    open. *)
Lemma multipart_handle_not_closed :
  let payload := JObj [("image_file", JStr "/tmp/logo.png")] in
  let run srv :=
    handle_request sample_loads 0 "v3/catalog/products/7/images" (LStr "POST")
      (LBool false) (LStr "image_file") payload "abc123" "token" false
      (fresh srv only_logo) in
  (run (scripted [Response 200 "{}"])).1 = Done (JObj [])
  /\ still_open (trace (run (scripted [Response 200 "{}"])).2) (JStr "/tmp/logo.png")
  /\ (run offline).1 = Raised ConnectionError
  /\ still_open (trace (run offline).2) (JStr "/tmp/logo.png")
  /\ ~ (exists events,
          trace (run offline).2 = events ++ [EvClose (JStr "/tmp/logo.png")]).
Proof.
  intros payload run.
  split; [vm_compute; reflexivity|].
  split; [exists [], [EvRequest (single_request "POST" "v3/catalog/products/7/images"
            (Some (JObj [])) None "abc123" "token"
            (Some (LStr "image_file", JStr "/tmp/logo.png")))];
          split; [vm_compute; reflexivity | by repeat constructor]|].
  split; [vm_compute; reflexivity|].
  split; [exists [], [EvRequest (single_request "POST" "v3/catalog/products/7/images"
            (Some (JObj [])) None "abc123" "token"
            (Some (LStr "image_file", JStr "/tmp/logo.png")))];
          split; [vm_compute; reflexivity | by repeat constructor]|].
  intros (events & Hev). vm_compute in Hev.
  destruct events as [|e1 [|e2 [|e3 events]]]; simpl in Hev; discriminate Hev.
Qed.

(** ** Commands *)

Lemma update_each_done items A items' :
  update_each items A = Done items' -> forallb is_mapping items' = true.
Proof.
  revert items'. induction items as [|item items IH]; intros items' H; simpl in H.
  - by inversion H.
  - destruct item; try done.
    destruct (update_each items A) as [rest| |]; try done.
    inversion H; subst. simpl. by apply IH.
Qed.

Section Commands.

Variable json_loads : string -> result json.
Variable str_format : string -> list (string * string) -> result string.

(** What [construct_request_data] returns is a mapping or a sequence of
    mappings, in which [None] is not found. *)
Lemma construct_request_data_shape data unknown_args w request_data w1 :
  construct_request_data json_loads data unknown_args w = (Done request_data, w1) ->
  (is_mapping request_data = true \/ is_mapping_seq request_data = true)
  /\ py_in LNone request_data = Done false.
Proof.
  unfold construct_request_data, bind. intros H.
  destruct (primary_data json_loads data w) as [[v| |] w0]; try done.
  destruct (parse_additional_data json_loads unknown_args w0) as [[A| |] w2]; try done.
  destruct v; try done.
  - unfold lift in H.
    destruct (update_each items A) as [items'| |] eqn:Hup; try done.
    inversion H; subst. apply update_each_done in Hup.
    split; [by right|]. simpl. f_equal.
    clear -Hup. induction items' as [|x xs IH]; [done|].
    simpl in *. apply andb_true_iff in Hup as [Hx Hxs].
    destruct x; try done. by apply IH.
  - inversion H; subst. split; [by left | done].
Qed.

Lemma py_pop_none request_data : exists e, py_pop LNone request_data = Raised e.
Proof. destruct request_data; simpl; eauto. Qed.

(** Without a multipart field name, [handle_request] opens nothing. *)
Lemma handle_request_opens_nothing fuel endpoint method all_pages request_data
    store_hash auth_token verbose :
  emits not_open
    (handle_request json_loads fuel endpoint method all_pages LNone request_data
       store_hash auth_token verbose).
Proof.
  unfold handle_request.
  apply emits_bind; [apply emits_lift|]. intros is_multipart.
  apply emits_bind.
  - destruct is_multipart; [|apply emits_ret].
    destruct (py_pop_none request_data) as [e ->].
    intros w. exists []. by rewrite app_nil_r.
  - intros fr. apply emits_bind.
    + apply emits_if; [|apply emits_ret].
      apply emits_bind; [by apply emits_emit|]. intros _. by apply emits_emit.
    + intros _. eapply emits_weaken; [|apply emits_make_request]. by intros [].
Qed.

Lemma action_command_opens_nothing fuel c store_hash auth_token verbose
    data unknown_args kwargs :
  lit_get_default "multipartParameter" LNone (cmd_action c) = LNone ->
  emits not_open
    (action_command json_loads str_format fuel c store_hash auth_token verbose
       data unknown_args kwargs).
Proof.
  intros Hmp. unfold action_command. rewrite Hmp.
  apply emits_bind; [apply emits_construct_request_data|]. intros request_data.
  apply emits_bind.
  - apply emits_for_each. intros acc kv.
    apply emits_if; [|apply emits_ret].
    apply emits_bind; [apply emits_stdin_read | intros; apply emits_ret].
  - intros kw. apply emits_if.
    + apply emits_bind; [apply emits_lift|]. intros endpoint.
      apply emits_bind; [apply emits_lift|]. intros method.
      apply emits_bind; [apply handle_request_opens_nothing|]. intros response.
      by apply emits_emit.
    + apply emits_bind; [by apply emits_emit | intros; apply emits_raise].
Qed.

End Commands.

(** C9. No action of the shipped tree has the key ['multipartParameter']
    (the two upload actions spell it ['multipartParamter']), so every
    compiled command passes [None] as multipart field name: the test
    [None in request_data] is false on every payload the merger returns, and
    no run of a shipped command opens a file. *)
Theorem shipped_tree_never_multipart :
  build_commands commands_structure = Done shipped_commands
  /\ length shipped_commands = 125
  /\ Forall (fun c => lit_get_default "multipartParameter" LNone (cmd_action c) = LNone)
       shipped_commands
  /\ ((fun c => (cmd_group c, cmd_name c, cmd_action c))
        <$> List.filter (fun c => has_key "multipartParamter" (cmd_action c))
              shipped_commands)
     = [ (["product"; "images"], LStr "add",
          [("action", LStr "add"); ("method", LStr "POST");
           ("multipartParamter", LStr "image_file")]);
         (["category"; "image"], LStr "add",
          [("action", LStr "add"); ("method", LStr "POST");
           ("multipartParamter", LStr "image_file")]) ]
  /\ (forall c, c ∈ shipped_commands ->
      forall json_loads str_format fuel store_hash auth_token verbose
             data unknown_args kwargs w,
        (forall request_data w1,
            construct_request_data json_loads data unknown_args w
              = (Done request_data, w1) ->
            py_in (lit_get_default "multipartParameter" LNone (cmd_action c))
              request_data = Done false)
        /\ exists events,
             trace (action_command json_loads str_format fuel c store_hash auth_token
                      verbose data unknown_args kwargs w).2
             = trace w ++ events
             /\ Forall not_open events).
Proof.
  assert (Hnone : Forall
    (fun c => lit_get_default "multipartParameter" LNone (cmd_action c) = LNone)
    shipped_commands).
  { apply Forall_forall. intros c Hc.
    assert (Hall : forallb
      (fun c => is_none (lit_get_default "multipartParameter" LNone (cmd_action c)))
      shipped_commands = true) by (vm_compute; reflexivity).
    apply list_elem_of_In in Hc.
    pose proof (proj1 (forallb_forall _ _) Hall c Hc) as H. cbv beta in H.
    by destruct (lit_get_default "multipartParameter" LNone (cmd_action c)). }
  split; [vm_compute; reflexivity|].
  split; [vm_compute; reflexivity|].
  split; [exact Hnone|].
  split; [vm_compute; reflexivity|].
  intros c Hc json_loads str_format fuel store_hash auth_token verbose
         data unknown_args kwargs w.
  pose proof (proj1 (Forall_forall _ _) Hnone c Hc) as Hmp.
  split.
  - intros request_data w1 Hrun. rewrite Hmp.
    by apply (construct_request_data_shape json_loads data unknown_args w request_data w1).
  - apply (action_command_opens_nothing json_loads str_format fuel c store_hash
             auth_token verbose data unknown_args kwargs Hmp w).
Qed.

(** With the payload [5], [products add] ends on an uncaught
    [AttributeError]: nothing has been written, nothing is reported. *)
Lemma scalar_payload_crashes :
  let w := fresh offline no_files in
  let run := action_command sample_loads format_plain 0 products_add
               "abc123" "token" false (Some "5") [] [] w in
  products_add ∈ shipped_commands
  /\ construct_request_data sample_loads (Some "5") [] w = (Raised AttributeError, w)
  /\ run = (Raised AttributeError, w)
  /\ ~ reported w run.
Proof.
  intros w run.
  split; [vm_compute; repeat (first [apply list_elem_of_here | apply list_elem_of_further])|].
  split; [vm_compute; reflexivity|].
  split; [vm_compute; reflexivity|].
  intros (code & text & Hres & _). vm_compute in Hres. discriminate Hres.
Qed.

(** * Further properties of the code *)

(** ** Argument merger *)

Section MergerMore.

Variable json_loads : string -> result json.

(** X1. Standard input is read, whole, by the first value that is [-],
    which resolves to the stripped content; a second such value finds
    stdin empty and resolves to whatever the empty text resolves to. *)
Theorem stdin_read_once w :
  parse_input_data json_loads "-" w
  = (resolve json_loads (Str.strip (stdin w)), drained w)
  /\ parse_input_data json_loads "-" (drained w)
     = (resolve json_loads "", drained w).
Proof.
  split; [apply parse_input_data_stdin|].
  by rewrite parse_input_data_stdin.
Qed.

Lemma consume_pairs_plain E :
  "-" ∉ E -> forall acc w, (consume_pairs json_loads acc E w).2 = w.
Proof.
  induction E as [|x|x y E IH] using list_pair_ind; intros Hno acc w.
  - done.
  - simpl. by destruct (Str.startswith x "--").
  - apply not_elem_of_cons in Hno as [_ Hno].
    apply not_elem_of_cons in Hno as [Hy Hno].
    simpl. destruct (Str.startswith x "--"); [|by apply IH].
    unfold bind. rewrite parse_input_data_plain by done.
    destruct (resolve json_loads y); [by apply IH | done..].
Qed.

(** X2. Without the value [-] among the inputs the merge reads nothing: the
    world after [construct_request_data] is the world before, whether it
    returns or raises. *)
Theorem merge_without_sentinel_keeps_world args_data unknown_args w :
  args_data <> Some "-" ->
  "-" ∉ unknown_args ->
  (construct_request_data json_loads args_data unknown_args w).2 = w.
Proof.
  intros Hdata Hargs.
  assert (Hprim : exists r, primary_data json_loads args_data w = (r, w)).
  { unfold primary_data. destruct args_data as [s|]; [|by eexists].
    destruct (Str.nonempty s); [|by eexists].
    rewrite parse_input_data_plain by congruence. by eexists. }
  destruct Hprim as [r Hprim].
  unfold construct_request_data, bind. rewrite Hprim.
  destruct r as [v| |]; [|done..].
  rewrite parse_additional_data_pairs.
  pose proof (consume_pairs_plain unknown_args Hargs [] w) as Hw.
  destruct (consume_pairs json_loads [] unknown_args w) as [[A| |] w1];
    simpl in Hw; subst w1; try done.
  destruct v; try done. unfold lift.
  by destruct (update_each items A).
Qed.

(** X3. When [json.loads] raises nothing but [JSONDecodeError] on the values
    it is given (the value tokens and, if one of them is [-], what stdin
    holds), [parse_additional_data] raises [IndexError] exactly on the
    token lists of odd length whose last token is a flag, and returns a
    mapping on every other list. *)
Theorem parse_additional_data_outcome unknown_args w :
  (forall s, s ∈ unknown_args -> quiet json_loads s) ->
  ("-" ∈ unknown_args ->
   quiet json_loads "" /\ quiet json_loads (Str.strip (stdin w))) ->
  exists w',
    if dangling unknown_args
    then parse_additional_data json_loads unknown_args w = (Raised IndexError, w')
    else exists A, parse_additional_data json_loads unknown_args w = (Done A, w').
Proof.
  intros HE Hstdin.
  destruct (consume_pairs_quiet json_loads unknown_args HE [] w Hstdin) as [w' H].
  exists w'. destruct (dangling unknown_args).
  - by rewrite parse_additional_data_pairs.
  - destruct H as [A HA]. exists A. by rewrite parse_additional_data_pairs.
Qed.

(** X4. A token in flag position that does not start with [--] is dropped
    together with the token after it, whatever that token is. *)
Theorem stray_token_swallows_next x y unknown_args w :
  Str.startswith x "--" = false ->
  parse_additional_data json_loads (x :: y :: unknown_args) w
  = parse_additional_data json_loads unknown_args w.
Proof.
  intros Hx. rewrite !parse_additional_data_pairs. simpl. by rewrite Hx.
Qed.

End MergerMore.

Lemma sample_loads_quiet s : quiet sample_loads s.
Proof.
  unfold quiet, resolve, sample_loads.
  destruct (List.find (fun kv => String.eqb kv.1 s) sample_documents); by eexists.
Qed.

Lemma parse_additional_data_outcome_witness :
  exists w',
    parse_additional_data sample_loads ["--name"; "x"; "--sku"] (fresh offline no_files)
    = (Raised IndexError, w').
Proof.
  exact (parse_additional_data_outcome sample_loads ["--name"; "x"; "--sku"]
           (fresh offline no_files)
           (fun s _ => sample_loads_quiet s)
           (fun _ => conj (sample_loads_quiet "") (sample_loads_quiet _))).
Defined.

Lemma stdin_read_once_witness :
  parse_input_data sample_loads "-"
    (World (nbsp +:+ " 5" +:+ nbsp +:+ newline) offline 0 no_files [])
  = (Done (JInt 5), fresh offline no_files)
  /\ parse_input_data sample_loads "-" (fresh offline no_files)
     = (Done (JStr ""), fresh offline no_files).
Proof.
  exact (stdin_read_once sample_loads
           (World (nbsp +:+ " 5" +:+ nbsp +:+ newline) offline 0 no_files [])).
Defined.

Lemma merge_without_sentinel_keeps_world_witness :
  (construct_request_data sample_loads (Some "{}") ["--a"; "9"]
     (World "pending input" offline 0 no_files [])).2
  = World "pending input" offline 0 no_files [].
Proof.
  apply (merge_without_sentinel_keeps_world sample_loads (Some "{}") ["--a"; "9"]).
  - discriminate.
  - intros Hin. repeat (apply elem_of_cons in Hin as [Hin|Hin]; [discriminate Hin|]).
    by apply elem_of_nil in Hin.
Defined.

Lemma stray_token_swallows_next_witness :
  parse_additional_data sample_loads ["name"; "--id"; "5"] (fresh offline no_files)
  = parse_additional_data sample_loads ["5"] (fresh offline no_files).
Proof.
  exact (stray_token_swallows_next sample_loads "name" "--id" ["5"]
           (fresh offline no_files) eq_refl).
Defined.

(** ** Keys of the extra mapping *)

Lemma replace_no_old s old new :
  new <> old -> Str.mem old (Str.replace s old new) = false.
Proof.
  intros Hne. induction s as [|c s IH]; [done|]. cbn [Str.replace Str.mem].
  destruct (Ascii.eqb c old) eqn:E.
  - destruct (Ascii.eqb new old) eqn:E'; [apply Ascii.eqb_eq in E'; done | exact IH].
  - by rewrite E.
Qed.

Lemma flag_key_no_dash flag : Str.mem "-" (flag_key flag) = false.
Proof. unfold flag_key. by apply replace_no_old. Qed.

Lemma lstrip_no_dash k : Str.mem "-" k = false -> Str.lstrip k "--" = k.
Proof.
  destruct k as [|c k]; [done|]. cbn [Str.lstrip Str.mem].
  rewrite (Ascii.eqb_sym "-" c).
  destruct (Ascii.eqb c "-") eqn:E; done.
Qed.

Lemma replace_no_dash k : Str.mem "-" k = false -> Str.replace k "-" "_" = k.
Proof.
  induction k as [|c k IH]; [done|]. cbn [Str.replace Str.mem].
  destruct (Ascii.eqb c "-") eqn:E; [done|]. intros H. by rewrite IH.
Qed.

(** X5. A key, written as a flag, names itself: [flag_key] has removed every
    dash, so stripping and replacing again change nothing. *)
Theorem flag_key_canonical flag :
  flag_key ("--" +:+ flag_key flag) = flag_key flag
  /\ Str.mem "-" (flag_key flag) = false.
Proof.
  split; [|apply flag_key_no_dash].
  pose proof (flag_key_no_dash flag) as Hk.
  unfold flag_key at 1.
  change (Str.lstrip ("--" +:+ flag_key flag) "--") with (Str.lstrip (flag_key flag) "--").
  by rewrite lstrip_no_dash, replace_no_dash.
Qed.

Lemma dict_set_keys_elem k' k v d :
  k' ∈ (Dict.set k v d).*1 <-> k' = k \/ k' ∈ d.*1.
Proof.
  induction d as [|[k0 v0] d IH]; csimpl.
  - rewrite list_elem_of_singleton. split; [by left | intros [H|H]; [done|]].
    by apply elem_of_nil in H.
  - destruct (String.eqb k0 k) eqn:E; csimpl.
    + apply String.eqb_eq in E; subst k0. rewrite elem_of_cons. tauto.
    + rewrite !elem_of_cons, IH. tauto.
Qed.

Lemma consume_pairs_keys json_loads E :
  forall acc w A w',
    consume_pairs json_loads acc E w = (Done A, w') ->
    forall k, k ∈ A.*1 <-> k ∈ acc.*1 \/ k ∈ flag_keys E.
Proof.
  induction E as [|x|x y E IH] using list_pair_ind; intros acc w A w' Hrun k.
  - inversion Hrun; subst. simpl. rewrite elem_of_nil. tauto.
  - simpl in Hrun. destruct (Str.startswith x "--"); inversion Hrun; subst.
    simpl. rewrite elem_of_nil. tauto.
  - simpl in Hrun. simpl. destruct (Str.startswith x "--").
    + unfold bind in Hrun.
      destruct (parse_input_data json_loads y w) as [[v| |] w1]; try done.
      rewrite (IH _ _ _ _ Hrun k), dict_set_keys_elem, elem_of_cons. tauto.
    + apply (IH _ _ _ _ Hrun k).
Qed.

(** X6. The mapping [parse_additional_data] returns has pairwise distinct
    keys, its keys are exactly the keys of the flagged pairs, and none of
    them contains a dash. *)
Theorem parse_additional_data_keys json_loads unknown_args w A w' :
  parse_additional_data json_loads unknown_args w = (Done A, w') ->
  NoDup A.*1
  /\ (forall k, k ∈ A.*1 <-> k ∈ flag_keys unknown_args)
  /\ Forall (fun k => Str.mem "-" k = false) A.*1.
Proof.
  rewrite parse_additional_data_pairs. intros Hrun.
  assert (Hkeys : forall k, k ∈ A.*1 <-> k ∈ flag_keys unknown_args).
  { intros k. rewrite (consume_pairs_keys _ _ _ _ _ _ Hrun k). csimpl.
    rewrite elem_of_nil. tauto. }
  split; [|split; [exact Hkeys|]].
  - eapply consume_pairs_NoDup; [|exact Hrun]. apply NoDup_nil_2.
  - apply Forall_forall. intros k Hk. apply Hkeys in Hk.
    clear -Hk. revert Hk.
    induction unknown_args as [|x|x y E IH] using list_pair_ind; simpl.
    + intros H. by apply elem_of_nil in H.
    + intros H. by apply elem_of_nil in H.
    + destruct (Str.startswith x "--"); [|exact IH].
      rewrite elem_of_cons. intros [-> | H]; [apply flag_key_no_dash | by apply IH].
Qed.

Lemma parse_additional_data_keys_witness :
  NoDup ([("a_b", JInt 4); ("c", JStr "x")] : dict).*1
  /\ (forall k, k ∈ ([("a_b", JInt 4); ("c", JStr "x")] : dict).*1
                <-> k ∈ flag_keys ["--a-b"; "3"; "--c"; "x"; "---a_b"; "4"])
  /\ Forall (fun k => Str.mem "-" k = false) ([("a_b", JInt 4); ("c", JStr "x")] : dict).*1.
Proof.
  exact (parse_additional_data_keys sample_loads ["--a-b"; "3"; "--c"; "x"; "---a_b"; "4"]
           (fresh offline no_files) [("a_b", JInt 4); ("c", JStr "x")]
           (fresh offline no_files) eq_refl).
Defined.

Lemma dict_set_fresh k v (d : dict) : k ∉ d.*1 -> Dict.set k v d = d ++ [(k, v)].
Proof.
  induction d as [|[k0 v0] d IH]; csimpl; [done|].
  rewrite not_elem_of_cons. intros [Hne Hnotin].
  destruct (String.eqb k0 k) eqn:E; [apply String.eqb_eq in E; congruence|].
  by rewrite IH.
Qed.

Lemma dict_update_fresh (other d : dict) :
  NoDup (d ++ other).*1 -> Dict.update d other = d ++ other.
Proof.
  unfold Dict.update. revert d.
  induction other as [|[k v] other IH]; intros d Hnd; simpl.
  - by rewrite app_nil_r.
  - rewrite dict_set_fresh.
    + rewrite IH; rewrite <- app_assoc; done.
    + rewrite fmap_app in Hnd. apply NoDup_app in Hnd as (_ & Hdisj & _).
      intros Hin. apply (Hdisj k Hin). csimpl. left.
Qed.

(** X7. Without a primary value ([--data] absent or empty) the payload is
    the mapping of the extra tokens itself, keys in the order of their first
    occurrence. *)
Theorem merge_without_primary json_loads args_data unknown_args w A w' :
  args_data = None \/ args_data = Some "" ->
  parse_additional_data json_loads unknown_args w = (Done A, w') ->
  construct_request_data json_loads args_data unknown_args w = (Done (JObj A), w').
Proof.
  intros Hdata Hextra.
  assert (Hprim : primary_data json_loads args_data w = (Done (JObj []), w))
    by (destruct Hdata as [-> | ->]; done).
  unfold construct_request_data, bind. rewrite Hprim, Hextra.
  rewrite dict_update_fresh; [done|]. simpl.
  rewrite parse_additional_data_pairs in Hextra.
  eapply consume_pairs_NoDup; [|exact Hextra]. apply NoDup_nil_2.
Qed.

Lemma merge_without_primary_witness :
  construct_request_data sample_loads None ["--name"; "x"; "--sku"; "5"]
    (fresh offline no_files)
  = (Done (JObj [("name", JStr "x"); ("sku", JInt 5)]), fresh offline no_files).
Proof.
  exact (merge_without_primary sample_loads None ["--name"; "x"; "--sku"; "5"]
           (fresh offline no_files) [("name", JStr "x"); ("sku", JInt 5)]
           (fresh offline no_files) (or_introl eq_refl) eq_refl).
Defined.

(** ** Pagination *)

Section PaginationMore.

Variable json_loads : string -> result json.
Variables (url : string) (headers : list (string * option string)).

Lemma after_requests_one w mk page :
  after_requests w mk page 1 = sent_one w (mk page).
Proof.
  unfold after_requests, sent_one. simpl. by rewrite Nat.add_1_r, Z.add_0_r.
Qed.

(** X8. A 200 response whose body has no ['meta'] ends the loop on the
    first page: one request is sent and the result holds that page's
    items. *)
Theorem paginated_get_without_meta params r body items w fuel :
  mapping_or_falsy params = true ->
  server w (sent w) (page_request url headers params 1) = Reply r ->
  status_code r = 200%Z ->
  json_loads (content r) = Done (JObj body) ->
  Dict.get "meta" body = None ->
  py_get (JObj body) "data" (JArr []) = Done (JArr items) ->
  make_paginated_request json_loads (S fuel) url headers params w
  = (Done (JObj [("data", JArr items)]), sent_one w (page_request url headers params 1)).
Proof.
  intros Hparams Hsrv Hst Hbody Hmeta Hdata. unfold make_paginated_request.
  rewrite (paginated_loop_last json_loads url headers params Hparams fuel [] 1 r items w Hsrv).
  - by rewrite after_requests_one.
  - exists body, (JInt 0). repeat split; try done.
    unfold total_pages_field. simpl. by rewrite Hmeta.
Qed.

(** X9. Nothing bounds the loop: against a server whose every answer is a
    page that is not the last one, no amount of fuel lets
    [make_paginated_request] return. *)
Theorem paginated_get_unbounded params w :
  mapping_or_falsy params = true ->
  (forall n page, exists r items,
      server w n (page_request url headers params page) = Reply r
      /\ page_reply json_loads page r items false) ->
  forall fuel,
    (make_paginated_request json_loads fuel url headers params w).1 = OutOfFuel.
Proof.
  intros Hparams Hsrv fuel. unfold make_paginated_request.
  assert (Hloop : forall w' page results,
    server w' = server w ->
    (paginated_loop json_loads fuel url headers params results page w').1 = OutOfFuel).
  { induction fuel as [|fuel IH]; intros w' page results Hw; [done|].
    destruct (Hsrv (sent w') page) as (r & items & Hreply & Hpage).
    rewrite <- Hw in Hreply.
    rewrite (paginated_loop_continue json_loads url headers params Hparams
               fuel results page r items w' Hreply Hpage).
    by apply IH. }
  by apply Hloop.
Qed.

(** X10. The page number of the loop replaces a ['page'] key of the caller;
    every other parameter goes out unchanged. *)
Theorem paginated_params_page_wins d page :
  exists pp,
    paginated_params (Some (JObj d)) page = Done pp
    /\ Dict.get "page" pp = Some (JInt page)
    /\ forall k, k <> "page" -> Dict.get k pp = Dict.get k d.
Proof.
  destruct d as [|kv d].
  - exists [("page", JInt page)]. repeat split; [done..|].
    intros k Hk. cbn [Dict.get].
    destruct (String.eqb "page" k) eqn:E; [|done].
    apply String.eqb_eq in E. congruence.
  - exists (Dict.set "page" (JInt page) (kv :: d)). split; [done|].
    split; [apply dict_get_set_eq|]. intros k Hk. apply dict_get_set_ne. congruence.
Qed.

(** X11. A truthy payload that is not a mapping (a non-empty JSON array,
    say) makes the paginated GET raise [TypeError] before anything is
    sent. *)
Theorem paginated_get_rejects_non_mapping p w fuel :
  truthy p = true ->
  is_mapping p = false ->
  make_paginated_request json_loads (S fuel) url headers (Some p) w
  = (Raised TypeError, w).
Proof.
  intros Ht Hm. unfold make_paginated_request. cbn [paginated_loop].
  unfold bind, lift, paginated_params. rewrite Ht. by destruct p.
Qed.

Lemma paginated_loop_unreachable params fuel results page w :
  mapping_or_falsy params = true ->
  server w (sent w) (page_request url headers params page) = NoReply ->
  paginated_loop json_loads (S fuel) url headers params results page w
  = (Raised ConnectionError, sent_one w (page_request url headers params page)).
Proof.
  intros Hparams Hsrv. cbn [paginated_loop]. unfold bind at 1. unfold lift at 1.
  rewrite (paginated_params_ok params Hparams).
  unfold bind, requests_get, requests_request, transport.
  change (Request (Str.upper "get") url headers None None
            (Some (JObj (page_query params page))) None)
    with (page_request url headers params page).
  by rewrite Hsrv.
Qed.

(** X12. When the server cannot be reached for some page, the paginated GET
    ends on [ConnectionError]: the items of the pages already fetched are
    lost and nothing is retried. *)
Theorem paginated_get_connection_failure params
    (earlier : list (response * list json)) w fuel :
  mapping_or_falsy params = true ->
  continuing_pages json_loads (server w) (page_request url headers params)
    (sent w) 1 earlier ->
  server w (sent w + length earlier)
    (page_request url headers params (1 + Z.of_nat (length earlier))) = NoReply ->
  length earlier < fuel ->
  make_paginated_request json_loads fuel url headers params w
  = (Raised ConnectionError,
     after_requests w (page_request url headers params) 1 (length earlier + 1)).
Proof.
  intros Hparams Hpages Hsrv Hfuel. unfold make_paginated_request.
  replace fuel with (length earlier + S (fuel - length earlier - 1)) by lia.
  rewrite (paginated_loop_pages json_loads url headers params Hparams earlier _ _ _ _ Hpages).
  rewrite paginated_loop_unreachable by done.
  by rewrite <- after_requests_one, after_requests_add.
Qed.

(** X13. Every request of a paginated GET is a GET without body and without
    files whose query carries the page number; in particular a file opened
    for a multipart field is never transmitted by it. *)
Theorem paginated_get_sends_page_gets fuel params :
  emits is_page_get (make_paginated_request json_loads fuel url headers params).
Proof.
  unfold make_paginated_request. generalize (@nil json) as results.
  generalize 1%Z as page.
  induction fuel as [|fuel IH]; intros page results; cbn [paginated_loop].
  - apply emits_lift.
  - intros w. unfold bind at 1. unfold lift at 1.
    destruct (paginated_params params page) as [pp| |] eqn:Hpp;
      [|by exists []; rewrite app_nil_r..].
    assert (Hpage : Dict.get "page" pp = Some (JInt page)).
    { unfold paginated_params in Hpp. destruct params as [p|]; [|by inversion Hpp].
      destruct (truthy p); [|by inversion Hpp].
      destruct p; try done. inversion Hpp. apply dict_get_set_eq. }
    revert w. apply emits_bind.
    + intros w. exists [EvRequest (Request "GET" url headers None None (Some (JObj pp)) None)].
      unfold requests_get, requests_request, transport.
      split; [by destruct (server w (sent w) _)|].
      constructor; [|constructor]. simpl. repeat split; try done. by exists pp, page.
    + intros response. apply emits_if; [apply emits_response_json|].
      apply emits_bind; [apply emits_response_json|]. intros json_response.
      apply emits_bind; [apply emits_lift|]. intros data.
      apply emits_bind; [apply emits_lift|]. intros items.
      apply emits_bind; [apply emits_lift|]. intros total_pages.
      apply emits_bind; [apply emits_lift|]. intros stop.
      apply emits_if; [apply emits_ret | apply IH].
Qed.

End PaginationMore.

Lemma paginated_get_without_meta_witness :
  make_paginated_request sample_loads 1 listing_url [] None
    (fresh (always (Response 200 "{}")) no_files)
  = (Done (JObj [("data", JArr [])]),
     sent_one (fresh (always (Response 200 "{}")) no_files)
       (page_request listing_url [] None 1)).
Proof.
  exact (paginated_get_without_meta sample_loads listing_url [] None
           (Response 200 "{}") [] [] (fresh (always (Response 200 "{}")) no_files) 0
           eq_refl eq_refl eq_refl eq_refl eq_refl eq_refl).
Defined.

Lemma paginated_get_unbounded_witness :
  (make_paginated_request more_loads 50 listing_url [] None
     (fresh (always (Response 200 nan_page_text)) no_files)).1 = OutOfFuel.
Proof.
  refine (paginated_get_unbounded more_loads listing_url [] None
            (fresh (always (Response 200 nan_page_text)) no_files) eq_refl _ 50).
  intros n page. exists (Response 200 nan_page_text), [].
  split; [reflexivity|].
  exists [("meta", JObj [("pagination", JObj [("total_pages", JFloat FNan)])])],
         (JFloat FNan).
  repeat split; vm_compute; reflexivity.
Defined.

Lemma paginated_get_rejects_non_mapping_witness :
  make_paginated_request sample_loads 1 listing_url [] (Some (JArr [JObj []]))
    (fresh offline no_files)
  = (Raised TypeError, fresh offline no_files).
Proof.
  exact (paginated_get_rejects_non_mapping sample_loads listing_url []
           (JArr [JObj []]) (fresh offline no_files) 0 eq_refl eq_refl).
Defined.

Lemma paginated_get_connection_failure_witness :
  make_paginated_request sample_loads 5 listing_url [] None
    (fresh (scripted [Response 200 (page_text "1, 2" "3")]) no_files)
  = (Raised ConnectionError,
     World "" (scripted [Response 200 (page_text "1, 2" "3")]) 2 no_files
       [ EvRequest (page_request listing_url [] None 1);
         EvRequest (page_request listing_url [] None 2) ]).
Proof.
  refine (paginated_get_connection_failure sample_loads listing_url [] None
            [ (Response 200 (page_text "1, 2" "3"), [JInt 1; JInt 2]) ]
            (fresh (scripted [Response 200 (page_text "1, 2" "3")]) no_files) 5
            eq_refl _ eq_refl _).
  - simpl. repeat split;
      by eexists (cons _ _), (JInt 3); repeat split; vm_compute; reflexivity.
  - simpl. lia.
Defined.

(** ** Single requests *)

Section DispatchMore.

Variable json_loads : string -> result json.

(** X14. When the server cannot be reached, a non-paginated dispatch ends on
    [ConnectionError] after its one attempt. *)
Theorem single_request_connection_failure fuel m endpoint data params all_pages
    store_hash auth_token files w :
  lit_truthy all_pages && String.eqb m "GET" = false ->
  server w (sent w)
    (single_request m endpoint data params store_hash auth_token files) = NoReply ->
  make_request json_loads fuel (LStr m) endpoint data params all_pages
    store_hash auth_token files w
  = (Raised ConnectionError,
     sent_one w (single_request m endpoint data params store_hash auth_token files)).
Proof.
  intros Hnp Hsrv. unfold make_request. cbn [lit_is]. rewrite Hnp.
  unfold bind, requests_request, transport.
  fold (single_request m endpoint data params store_hash auth_token files).
  by rewrite Hsrv.
Qed.

(** X15. A response whose body does not decode makes a non-paginated
    dispatch raise [JSONDecodeError], unless the status is 200 or 204 and the
    body is empty: an error status with an empty body is not returned, it
    raises. *)
Theorem single_request_undecodable fuel m endpoint data params all_pages
    store_hash auth_token files r w :
  lit_truthy all_pages && String.eqb m "GET" = false ->
  server w (sent w)
    (single_request m endpoint data params store_hash auth_token files) = Reply r ->
  json_loads (content r) = Raised JSONDecodeError ->
  content r <> "" \/ (status_code r <> 200%Z /\ status_code r <> 204%Z) ->
  make_request json_loads fuel (LStr m) endpoint data params all_pages
    store_hash auth_token files w
  = (Raised JSONDecodeError,
     sent_one w (single_request m endpoint data params store_hash auth_token files)).
Proof.
  intros Hnp Hsrv Hbody Hcase. unfold make_request. cbn [lit_is]. rewrite Hnp.
  unfold bind, requests_request, transport.
  fold (single_request m endpoint data params store_hash auth_token files).
  rewrite Hsrv. unfold response_json. rewrite Hbody.
  destruct Hcase as [Hne | [H200 H204]].
  - destruct (content r); [done|]. simpl.
    by destruct ((status_code r =? 200)%Z || (status_code r =? 204)%Z).
  - apply Z.eqb_neq in H200, H204. by rewrite H200, H204.
Qed.



End DispatchMore.

Lemma single_request_connection_failure_witness :
  make_request sample_loads 0 (LStr "POST") "v3/catalog/products" (Some (JObj []))
    None (LBool false) "abc123" "token" None (fresh offline no_files)
  = (Raised ConnectionError,
     sent_one (fresh offline no_files)
       (single_request "POST" "v3/catalog/products" (Some (JObj [])) None
          "abc123" "token" None)).
Proof.
  exact (single_request_connection_failure sample_loads 0 "POST" "v3/catalog/products"
           (Some (JObj [])) None (LBool false) "abc123" "token" None
           (fresh offline no_files) eq_refl eq_refl).
Defined.

Lemma single_request_undecodable_witness :
  make_request sample_loads 0 (LStr "DELETE") "v3/catalog/products/7" None
    None (LBool false) "abc123" "token" None
    (fresh (scripted [Response 404 ""]) no_files)
  = (Raised JSONDecodeError,
     sent_one (fresh (scripted [Response 404 ""]) no_files)
       (single_request "DELETE" "v3/catalog/products/7" None None
          "abc123" "token" None)).
Proof.
  apply (single_request_undecodable sample_loads 0 "DELETE" "v3/catalog/products/7"
           None None (LBool false) "abc123" "token" None (Response 404 "")
           (fresh (scripted [Response 404 ""]) no_files) eq_refl eq_refl eq_refl).
  right. split; discriminate.
Defined.



(** ** Command-tree compiler *)

Lemma add_action_commands_loop_outcome group endpoint_format acts :
  if forallb (has_key "action") acts
  then exists cs, add_action_commands_loop group endpoint_format acts = Done cs
                  /\ cmd_action <$> cs = acts
  else add_action_commands_loop group endpoint_format acts = Raised KeyError.
Proof.
  induction acts as [|a acts IH]; [by exists []|].
  cbn [forallb add_action_commands_loop]. unfold has_key at 1.
  destruct (lit_get "action" a) as [name|]; [|done]. cbn [andb].
  destruct (forallb (has_key "action") acts).
  - destruct IH as (cs & -> & Hcs). eexists. split; [done|]. csimpl. by rewrite Hcs.
  - by rewrite IH.
Qed.

Lemma add_subcommand_groups_loop_outcome group subs :
  if forallb (has_key "action") (subs ≫= actions)
  then exists cs, add_subcommand_groups_loop group subs = Done cs
                  /\ cmd_action <$> cs = subs ≫= actions
  else add_subcommand_groups_loop group subs = Raised KeyError.
Proof.
  induction subs as [|sub subs IH]; [by exists []|].
  cbn [add_subcommand_groups_loop]. rewrite bind_cons, forallb_app.
  unfold add_action_commands.
  pose proof (add_action_commands_loop_outcome (group ++ [command sub])
                (match endpoint sub with Some e => e | None => "" end) (actions sub)) as Hown.
  destruct (forallb (has_key "action") (actions sub)); [|by rewrite Hown].
  destruct Hown as (own & -> & Hown). cbn [andb].
  destruct (forallb (has_key "action") (subs ≫= actions)).
  - destruct IH as (rest & -> & Hrest). eexists. split; [done|].
    by rewrite fmap_app, Hown, Hrest.
  - by rewrite IH.
Qed.

Lemma build_commands_cases structure :
  if forallb (has_key "action") (visible_actions structure)
  then exists cs, build_commands structure = Done cs
                  /\ cmd_action <$> cs = visible_actions structure
  else build_commands structure = Raised KeyError.
Proof.
  unfold visible_actions.
  induction structure as [|cmd structure IH]; [by exists []|].
  cbn [build_commands]. rewrite bind_cons, !forallb_app.
  unfold add_action_commands, add_subcommand_groups.
  pose proof (add_action_commands_loop_outcome [command cmd]
                (match endpoint cmd with Some e => e | None => "" end) (actions cmd)) as Hown.
  destruct (forallb (has_key "action") (actions cmd)); [|by rewrite Hown].
  destruct Hown as (own & -> & Hown). cbn [andb].
  pose proof (add_subcommand_groups_loop_outcome [command cmd] (subcommands cmd)) as Hsub.
  destruct (forallb (has_key "action") (subcommands cmd ≫= actions)); [|by rewrite Hsub].
  destruct Hsub as (nested & -> & Hnested). cbn [andb].
  match goal with |- context [forallb _ ?l] => destruct (forallb (has_key "action") l) end.
  - destruct IH as (rest & -> & Hrest). eexists. split; [done|].
    by rewrite !fmap_app, Hown, Hnested, Hrest, app_assoc.
  - by rewrite IH.
Qed.

(** X18. When [build_commands] returns, every action of the top-level
    commands and of their direct subcommands has the key ['action'], and one
    command has been created per such action, in order: a tree in which a
    visited action lacks the key is never compiled. *)
Theorem build_commands_outcome structure cs :
  build_commands structure = Done cs ->
  forallb (has_key "action") (visible_actions structure) = true
  /\ cmd_action <$> cs = visible_actions structure.
Proof.
  intros Hrun. pose proof (build_commands_cases structure) as H.
  destruct (forallb (has_key "action") (visible_actions structure)).
  - destruct H as (cs' & Hcs' & Hmap). rewrite Hrun in Hcs'.
    inversion Hcs'; subst. done.
  - rewrite Hrun in H. discriminate H.
Qed.

Lemma build_commands_outcome_witness :
  forallb (has_key "action")
    (visible_actions
       [CommandDict "order" (Some "v2/orders/{order_id}") []
          [CommandDict "metafields" (Some "v3/orders/{order_id}/metafields")
             [[("action", LStr "get"); ("method", LStr "GET")];
              [("action", LStr "add"); ("method", LStr "POST")]] []]]) = true
  /\ cmd_action
       <$> [Compiled ["order"; "metafields"] (LStr "get")
              "v3/orders/{order_id}/metafields"
              [("action", LStr "get"); ("method", LStr "GET")];
            Compiled ["order"; "metafields"] (LStr "add")
              "v3/orders/{order_id}/metafields"
              [("action", LStr "add"); ("method", LStr "POST")]]
     = visible_actions
         [CommandDict "order" (Some "v2/orders/{order_id}") []
            [CommandDict "metafields" (Some "v3/orders/{order_id}/metafields")
               [[("action", LStr "get"); ("method", LStr "GET")];
                [("action", LStr "add"); ("method", LStr "POST")]] []]].
Proof.
  exact (build_commands_outcome
           [CommandDict "order" (Some "v2/orders/{order_id}") []
              [CommandDict "metafields" (Some "v3/orders/{order_id}/metafields")
                 [[("action", LStr "get"); ("method", LStr "GET")];
                  [("action", LStr "add"); ("method", LStr "POST")]] []]]
           _ eq_refl).
Defined.

(** X19. [build_commands] goes one level down and no further: the
    subcommands of a subcommand are never compiled. *)
Theorem build_commands_ignores_nested structure :
  build_commands structure = build_commands (prune_nested <$> structure).
Proof.
  assert (Hsub : forall group subs,
    add_subcommand_groups_loop group subs
    = add_subcommand_groups_loop group
        ((fun sub => CommandDict (command sub) (endpoint sub) (actions sub) []) <$> subs)).
  { intros group subs. induction subs as [|[n e a s] subs IH]; [done|].
    csimpl. by rewrite <- IH. }
  induction structure as [|[n e a s] structure IH]; [done|].
  csimpl. rewrite <- IH. unfold add_subcommand_groups. cbn [subcommands prune_nested].
  by rewrite <- Hsub.
Qed.

Section CommandsMore.

Variable json_loads : string -> result json.
Variable str_format : string -> list (string * string) -> result string.

Lemma silent_trace {A} (m : M A) w :
  emits (fun _ => False) m -> trace (m w).2 = trace w.
Proof.
  intros Hm. destruct (Hm w) as (events & Ht & Hev).
  destruct events as [|e events]; [by rewrite Ht, app_nil_r|].
  by inversion Hev.
Qed.

Lemma resolve_kwargs_returns (kwargs : list (string * string)) :
  forall (acc : list (string * string)) w, exists kw w',
    for_each
      (fun acc kv =>
         if String.eqb kv.2 "-"
         then s <- stdin_read ;; ret (acc ++ [(kv.1, Str.strip s)])
         else ret (acc ++ [kv]))
      kwargs acc w = (Done kw, w')
    /\ trace w' = trace w.
Proof.
  induction kwargs as [|kv kwargs IH]; intros acc w; [by exists acc, w|].
  cbn [for_each]. unfold bind at 1.
  destruct (String.eqb kv.2 "-").
  - unfold bind at 1. unfold stdin_read at 1. unfold ret at 1.
    destruct (IH (acc ++ [(kv.1, Str.strip (stdin w))])
                (World "" (server w) (sent w) (disk w) (trace w))) as (kw & w' & -> & Ht).
    by exists kw, w'.
  - unfold ret at 1. apply IH.
Qed.

(** X20. A command whose resource has no endpoint sends nothing: once the
    payload is built, the run writes the one line
    [An endpoint not defined for this command.] to stderr and exits with
    status 1. *)
Theorem command_without_endpoint fuel c store_hash auth_token verbose
    data unknown_args kwargs w request_data w1 :
  endpoint_format c = "" ->
  construct_request_data json_loads data unknown_args w = (Done request_data, w1) ->
  exists w2,
    action_command json_loads str_format fuel c store_hash auth_token verbose
      data unknown_args kwargs w
    = (Raised (SystemExit 1), w2)
    /\ trace w2
       = trace w ++ [EvPrint Stderr "An endpoint not defined for this command." None].
Proof.
  intros Hend Hrun.
  assert (Ht1 : trace w1 = trace w).
  { pose proof (silent_trace (construct_request_data json_loads data unknown_args) w
                  (emits_construct_request_data json_loads _ data unknown_args)) as H.
    by rewrite Hrun in H. }
  unfold action_command. unfold bind at 1. rewrite Hrun.
  unfold bind at 1.
  destruct (resolve_kwargs_returns kwargs [] w1) as (kw & w' & -> & Ht).
  rewrite Hend. cbn [Str.nonempty]. unfold bind, emit, raise. cbn [trace].
  eexists. split; [done|]. cbn [trace]. by rewrite Ht, Ht1.
Qed.

End CommandsMore.

Lemma command_without_endpoint_witness :
  exists w2,
    action_command sample_loads format_plain 0 category_get "abc123" "token" false
      None [] [] (fresh offline no_files)
    = (Raised (SystemExit 1), w2)
    /\ trace w2
       = trace (fresh offline no_files)
         ++ [EvPrint Stderr "An endpoint not defined for this command." None].
Proof.
  exact (command_without_endpoint sample_loads format_plain 0 category_get
           "abc123" "token" false None [] [] (fresh offline no_files)
           (JObj []) (fresh offline no_files) eq_refl eq_refl).
Defined.

(** ** Placeholders and option names *)

Lemma scan_placeholders_outside pre rest :
  Str.mem "{" pre = false ->
  scan_placeholders (pre +:+ rest) None = scan_placeholders rest None.
Proof.
  induction pre as [|c pre IH]; [done|].
  change (String c pre +:+ rest) with (String c (pre +:+ rest)).
  cbn [Str.mem scan_placeholders].
  destruct (Ascii.eqb c "{") eqn:E; [done|]. exact IH.
Qed.

Lemma append_empty_r s : s +:+ "" = s.
Proof.
  induction s as [|a s IH]; [done|].
  change (String a s +:+ "") with (String a (s +:+ "")). by rewrite IH.
Qed.

Lemma append_snoc_l s c t : (s +:+ String c "") +:+ t = s +:+ String c t.
Proof.
  induction s as [|a s IH]; [done|].
  change ((String a s +:+ String c "") +:+ t) with (String a ((s +:+ String c "") +:+ t)).
  change (String a s +:+ String c t) with (String a (s +:+ String c t)).
  by rewrite IH.
Qed.

Lemma scan_placeholders_inside name :
  Str.mem "}" name = false ->
  Str.mem (ascii_of_nat 10) name = false ->
  forall read post,
    scan_placeholders (name +:+ String "}" post) (Some read)
    = (read +:+ name) :: scan_placeholders post None.
Proof.
  induction name as [|c name IH]; intros Hclose Hnl read post.
  - change ("" +:+ String "}" post) with (String "}" post).
    cbn [scan_placeholders]. rewrite Ascii.eqb_refl. by rewrite append_empty_r.
  - cbn [Str.mem] in Hclose, Hnl.
    change (String c name +:+ String "}" post) with (String c (name +:+ String "}" post)).
    cbn [scan_placeholders].
    destruct (Ascii.eqb c "}") eqn:E1; [done|].
    destruct (Ascii.eqb c (ascii_of_nat 10)) eqn:E2; [done|].
    rewrite IH by done. by rewrite append_snoc_l.
Qed.

(** X21. A template made of a text without opening brace, a name in braces
    and a remainder yields that name followed by the placeholders of the
    remainder: names are found in order of appearance and a name that occurs
    twice is listed twice. *)
Theorem find_placeholders_segment pre name post :
  Str.mem "{" pre = false ->
  Str.mem "}" name = false ->
  Str.mem (ascii_of_nat 10) name = false ->
  find_placeholders (pre +:+ String "{" (name +:+ String "}" post))
  = name :: find_placeholders post.
Proof.
  intros Hpre Hclose Hnl. unfold find_placeholders.
  rewrite scan_placeholders_outside by done.
  cbn [scan_placeholders]. rewrite Ascii.eqb_refl.
  by rewrite scan_placeholders_inside.
Qed.

Lemma find_placeholders_segment_witness :
  find_placeholders "v3/catalog/products/{product_id}/metafields/{metafield_id}"
  = "product_id" :: find_placeholders "/metafields/{metafield_id}".
Proof.
  exact (find_placeholders_segment "v3/catalog/products/" "product_id"
           "/metafields/{metafield_id}" eq_refl eq_refl eq_refl).
Defined.

Lemma replace_back s old new :
  Str.mem new s = false -> Str.replace (Str.replace s old new) new old = s.
Proof.
  induction s as [|c s IH]; [done|]. cbn [Str.mem Str.replace].
  destruct (Ascii.eqb c new) eqn:E; [done|]. intros Hs.
  rewrite IH by done. f_equal.
  destruct (Ascii.eqb c old) eqn:E'.
  - rewrite Ascii.eqb_refl. by apply Ascii.eqb_eq in E'.
  - by rewrite E.
Qed.

(** X22. The option declared for a placeholder and the key read from a flag
    are inverse namings: for a placeholder without dash that does not start
    with an underscore, the key of its option name is the placeholder. *)
Theorem option_name_flag_key placeholder :
  Str.mem "-" placeholder = false ->
  Str.startswith placeholder "_" = false ->
  Str.startswith (option_name placeholder) "--" = true
  /\ flag_key (option_name placeholder) = placeholder.
Proof.
  intros Hdash Hunder. split.
  { unfold option_name. by destruct (Str.replace placeholder "_" "-"). }
  unfold flag_key, option_name.
  change (Str.lstrip ("--" +:+ Str.replace placeholder "_" "-") "--")
    with (Str.lstrip (Str.replace placeholder "_" "-") "--").
  assert (Hstrip : Str.lstrip (Str.replace placeholder "_" "-") "--"
                   = Str.replace placeholder "_" "-").
  { destruct placeholder as [|c p]; [done|].
    cbn [Str.mem Str.startswith] in Hdash, Hunder.
    cbn [Str.replace Str.lstrip Str.mem].
    rewrite (Ascii.eqb_sym "_" c) in Hunder.
    destruct (Ascii.eqb c "_") eqn:E1; [by destruct p|].
    rewrite (Ascii.eqb_sym "-" c).
    destruct (Ascii.eqb c "-") eqn:E2; done. }
  rewrite Hstrip. by apply replace_back.
Qed.

Lemma option_name_flag_key_witness :
  Str.startswith (option_name "product_id") "--" = true
  /\ flag_key (option_name "product_id") = "product_id".
Proof.
  exact (option_name_flag_key "product_id" eq_refl eq_refl).
Defined.

(** ** Payloads that are sequences, and the command as a whole *)

Section WholeCommand.

Variable json_loads : string -> result json.
Variable str_format : string -> list (string * string) -> result string.

Lemma handle_request_not_multipart fuel endpoint method all_pages mp request_data
    store_hash auth_token verbose w :
  py_in mp request_data = Done false ->
  handle_request json_loads fuel endpoint method all_pages mp request_data
    store_hash auth_token verbose w
  = make_request json_loads fuel method endpoint
      (if lit_is method "POST" || lit_is method "PUT" then Some request_data else None)
      (if lit_is method "GET" then Some request_data else None)
      all_pages store_hash auth_token None
      (recorded w (verbose_prints verbose endpoint request_data)).
Proof.
  intros Hin. unfold handle_request.
  unfold bind at 1. unfold lift at 1. rewrite Hin.
  unfold bind at 1. unfold ret at 1. cbn [fst snd].
  unfold bind at 1. unfold recorded, verbose_prints.
  destruct verbose; unfold bind, emit, ret; cbn [stdin server sent disk trace];
    rewrite <- ?app_assoc, ?app_nil_r; try done.
  by destruct w.
Qed.

Lemma str_not_among_mappings k items :
  forallb is_mapping items = true -> existsb (lit_eq_json (LStr k)) items = false.
Proof.
  induction items as [|x items IH]; [done|]. simpl.
  intros H. apply andb_true_iff in H as [Hx Hitems].
  destruct x; try done. by apply IH.
Qed.

(** X23. A payload that is a sequence of mappings is never sent as
    multipart, even when its elements have the multipart field: a POST
    carries the whole sequence as its JSON body and no file is opened. *)
Theorem sequence_payload_is_never_multipart fuel endpoint all_pages k items
    store_hash auth_token verbose w :
  forallb is_mapping items = true ->
  exists res,
    handle_request json_loads fuel endpoint (LStr "POST") all_pages (LStr k)
      (JArr items) store_hash auth_token verbose w
    = (res,
       sent_one (recorded w (verbose_prints verbose endpoint (JArr items)))
         (Request "POST" (api_url store_hash endpoint) (api_headers auth_token None)
            (Some (JArr items)) None None None)).
Proof.
  intros Hitems.
  rewrite handle_request_not_multipart
    by (cbn [py_in]; by rewrite str_not_among_mappings).
  apply (make_request_single json_loads fuel "POST" endpoint (Some (JArr items)) None
           all_pages store_hash auth_token None).
  apply andb_false_r.
Qed.

(** X24. Whatever [construct_request_data] returns is a mapping or a
    sequence of mappings: no other shape reaches the dispatcher. *)
Theorem merge_result_shape data unknown_args w request_data w1 :
  construct_request_data json_loads data unknown_args w = (Done request_data, w1) ->
  is_mapping request_data = true \/ is_mapping_seq request_data = true.
Proof.
  intros Hrun.
  apply (construct_request_data_shape json_loads data unknown_args w request_data w1 Hrun).
Qed.

Lemma resolve_kwargs_plain (kwargs : list (string * string)) :
  Forall (fun kv => kv.2 <> "-") kwargs ->
  forall (acc : list (string * string)) w,
    for_each
      (fun acc kv =>
         if String.eqb kv.2 "-"
         then s <- stdin_read ;; ret (acc ++ [(kv.1, Str.strip s)])
         else ret (acc ++ [kv]))
      kwargs acc w = (Done (acc ++ kwargs), w).
Proof.
  induction 1 as [|kv kwargs Hkv _ IH]; intros acc w.
  - by rewrite app_nil_r.
  - cbn [for_each]. unfold bind at 1.
    apply String.eqb_neq in Hkv. rewrite Hkv. unfold ret at 1.
    rewrite IH. by rewrite <- app_assoc.
Qed.

(** X25. A command with an endpoint prints whatever the dispatcher returns
    to stdout and ends normally: the body of an upstream error is printed
    like any other result, with no exit status of its own. *)
Theorem action_command_prints_response fuel c store_hash auth_token verbose
    data unknown_args kwargs w request_data w1 endpoint method response w2 :
  construct_request_data json_loads data unknown_args w = (Done request_data, w1) ->
  Forall (fun kv => kv.2 <> "-") kwargs ->
  Str.nonempty (endpoint_format c) = true ->
  str_format (endpoint_format c) kwargs = Done endpoint ->
  lit_get "method" (cmd_action c) = Some method ->
  handle_request json_loads fuel endpoint method
    (lit_get_default "allPages" (LBool false) (cmd_action c))
    (lit_get_default "multipartParameter" LNone (cmd_action c))
    request_data store_hash auth_token verbose w1 = (Done response, w2) ->
  action_command json_loads str_format fuel c store_hash auth_token verbose
    data unknown_args kwargs w
  = (Done tt, recorded w2 [EvPrint Stdout "" (Some response)]).
Proof.
  intros Hrun Hkw Hend Hfmt Hmethod Hreq.
  unfold action_command. unfold bind at 1. rewrite Hrun.
  unfold bind at 1. rewrite (resolve_kwargs_plain kwargs Hkw [] w1).
  cbn [app]. rewrite Hend.
  unfold bind at 1. unfold lift at 1. rewrite Hfmt.
  unfold bind at 1. unfold lift at 1. rewrite Hmethod.
  unfold bind at 1. rewrite Hreq. done.
Qed.

End WholeCommand.

Lemma sequence_payload_is_never_multipart_witness :
  exists res,
    handle_request sample_loads 0 "v3/catalog/products/7/images" (LStr "POST")
      (LBool false) (LStr "image_file")
      (JArr [JObj [("image_file", JStr "/tmp/logo.png")]]) "abc123" "token" false
      (fresh offline only_logo)
    = (res,
       sent_one (recorded (fresh offline only_logo) [])
         (Request "POST" (api_url "abc123" "v3/catalog/products/7/images")
            (api_headers "token" None)
            (Some (JArr [JObj [("image_file", JStr "/tmp/logo.png")]])) None None None)).
Proof.
  exact (sequence_payload_is_never_multipart sample_loads 0
           "v3/catalog/products/7/images" (LBool false) "image_file"
           [JObj [("image_file", JStr "/tmp/logo.png")]] "abc123" "token" false
           (fresh offline only_logo) eq_refl).
Defined.

Lemma merge_result_shape_witness :
  is_mapping (JArr [JObj [("a", JInt 9)]; JObj [("b", JInt 2); ("a", JInt 9)]]) = true
  \/ is_mapping_seq (JArr [JObj [("a", JInt 9)]; JObj [("b", JInt 2); ("a", JInt 9)]])
     = true.
Proof.
  exact (merge_result_shape sample_loads
           (Some ("[{" +:+ quoted "a" +:+ ": 1}, {" +:+ quoted "b" +:+ ": 2}]"))
           ["--a"; "9"] (fresh offline no_files)
           (JArr [JObj [("a", JInt 9)]; JObj [("b", JInt 2); ("a", JInt 9)]])
           (fresh offline no_files) eq_refl).
Defined.

Lemma action_command_prints_response_witness :
  action_command sample_loads format_plain 0 products_add "abc123" "token" false
    None ["--name"; "x"] [] (fresh (scripted [Response 500 "{}"]) no_files)
  = (Done tt,
     recorded
       (sent_one (fresh (scripted [Response 500 "{}"]) no_files)
          (single_request "POST" "v3/catalog/products"
             (Some (JObj [("name", JStr "x")])) None "abc123" "token" None))
       [EvPrint Stdout "" (Some (JObj []))]).
Proof.
  apply (action_command_prints_response sample_loads format_plain 0 products_add
           "abc123" "token" false None ["--name"; "x"] []
           (fresh (scripted [Response 500 "{}"]) no_files)
           (JObj [("name", JStr "x")])
           (fresh (scripted [Response 500 "{}"]) no_files)
           "v3/catalog/products" (LStr "POST") (JObj [])).
  - reflexivity.
  - constructor.
  - reflexivity.
  - reflexivity.
  - reflexivity.
  - vm_compute. reflexivity.
Defined.
